(** * The Fitbit dashboard script (newscript.py), embedded in Rocq

    The script loads eight CSV exports once (behind [st.cache_data]), shows a
    five-way radio menu and renders one view per pass.  Render passes are
    modelled as pure functions from the loaded tables and the widget inputs to
    the list of Streamlit calls they issue; the loader is modelled as a state
    transformer over a file system, a read log, the cache and an object
    allocator.

    Conventions.
    - A parsed timestamp ([pd.to_datetime]) is the number of nanoseconds since
      the epoch, as pandas stores it; [.dt.date] and [.dt.hour] are computed by
      floor division.
    - Integer columns are [Z]; fractional columns and every quotient the script
      forms are exact rationals [Q].  The rounding that float64 adds on top of
      these values is not part of the model.
    - Every cell of a loaded table is present: missing values (NaN, NaT) are
      outside the model. *)

From Stdlib Require Import ZArith QArith Qabs Qround List String Ascii Bool Lia Lqa.
From Stdlib Require Import DecimalString Permutation Sorted Reals Qreals.
Import ListNotations.

Open Scope Z_scope.

(* ================================================================== *)
(** ** Timestamps *)

Module Timestamp.

Definition timestamp := Z.
Definition date := Z.          (* days since 1970-01-01 *)

Definition ns_per_second : Z := 1000000000.
Definition ns_per_hour : Z := 3600 * ns_per_second.
Definition ns_per_day : Z := 24 * ns_per_hour.

(** [Series.dt.date] *)
Definition dt_date (t : timestamp) : date := t / ns_per_day.

(** [Series.dt.hour] *)
Definition dt_hour (t : timestamp) : Z := (t mod ns_per_day) / ns_per_hour.

(** Days since the epoch of a proleptic Gregorian calendar date. *)
Definition days_from_civil (y m d : Z) : date :=
  let y' := if m <=? 2 then y - 1 else y in
  let era := y' / 400 in
  let yoe := y' - era * 400 in
  let mp := (m + 9) mod 12 in
  let doy := (153 * mp + 2) / 5 + d - 1 in
  let doe := yoe * 365 + yoe / 4 - yoe / 100 + doy in
  era * 146097 + doe - 719468.

(** The timestamp [pd.to_datetime] gives a date and a time of day. *)
Definition mk_timestamp (y m d hh mm ss : Z) : timestamp :=
  days_from_civil y m d * ns_per_day
  + hh * ns_per_hour + mm * 60 * ns_per_second + ss * ns_per_second.

Definition midnight (y m d : Z) : timestamp := mk_timestamp y m d 0 0 0.

End Timestamp.
Import Timestamp.

(* ================================================================== *)
(** ** The eight tables

    Each record lists the columns the script names; a table is the list of its
    rows in file order.  The type [D] is the type of the date column: text as
    [pd.read_csv] leaves it, a timestamp once [pd.to_datetime] has replaced
    it. *)

Section Rows.
Set Implicit Arguments.
Variable D : Type.

Record activity_row_of := mkActivity {
  ActivityDate : D;
  TotalSteps : Z;
  TotalDistance : Q;
  Calories : Z;
  VeryActiveMinutes : Z;
  FairlyActiveMinutes : Z;
  LightlyActiveMinutes : Z;
  SedentaryMinutes : Z
}.

Record calories_row_of := mkCalories {
  cal_ActivityDay : D;
  cal_Calories : Z
}.

Record intensities_row_of := mkIntensities {
  int_ActivityDay : D;
  int_SedentaryMinutes : Z;
  int_LightlyActiveMinutes : Z;
  int_FairlyActiveMinutes : Z;
  int_VeryActiveMinutes : Z
}.

Record steps_row_of := mkSteps {
  st_ActivityDay : D;
  st_StepTotal : Z
}.

Record sleep_row_of := mkSleep {
  SleepDay : D;
  TotalMinutesAsleep : Z
}.

Record heartrate_row_of := mkHeartrate {
  Time : D;
  Value : Z
}.

Record hourly_row_of := mkHourly {
  ActivityHour : D;
  StepTotal : Z
}.

Record weight_row_of := mkWeight {
  Date : D;
  WeightKg : Q;
  BMI : Q
}.

Unset Implicit Arguments.
End Rows.

Definition activity_row : Type := activity_row_of timestamp.
Definition calories_row : Type := calories_row_of timestamp.
Definition intensities_row : Type := intensities_row_of timestamp.
Definition steps_row : Type := steps_row_of timestamp.
Definition sleep_row : Type := sleep_row_of timestamp.
Definition heartrate_row : Type := heartrate_row_of timestamp.
Definition hourly_row : Type := hourly_row_of timestamp.
Definition weight_row : Type := weight_row_of timestamp.

(** The tuple [load_data] returns, in its order. *)
Record tables := mkTables {
  daily_activity : list activity_row;
  daily_calories : list calories_row;
  daily_intensities : list intensities_row;
  daily_steps : list steps_row;
  sleep_day : list sleep_row;
  heartrate : list heartrate_row;
  hourly_steps : list hourly_row;
  weight : list weight_row
}.

(* ================================================================== *)
(** ** What a render pass emits *)

Inductive figure :=
| px_line (title : string) (markers : bool) (color : option string)
          (points : list (timestamp * Q))
| px_scatter_ols (title : string) (points : list (Q * Q))
| px_histogram_box (title : string) (nbins : Z) (xs : list Q)
| px_bar (title : string) (bars : list (Z * Q)).

(** A cell of the correlation table: [None] is NaN. *)
Definition corr_cell := option R.

Inductive cmd :=
| st_set_page_config (page_title : string)
| st_title (s : string)
| st_markdown (s : string)
| st_sidebar_radio (label : string) (options : list string)
| st_header (s : string)
| st_subheader (s : string)
| st_plotly_chart (f : figure)
| st_dataframe_blues (labels : list string) (cells : list (list corr_cell))
| st_selectbox (label : string) (options : list date)
| st_warning (s : string)
| st_metric (label value : string).

Definition is_chart (c : cmd) : bool :=
  match c with st_plotly_chart _ => true | _ => false end.
Definition is_warning (c : cmd) : bool :=
  match c with st_warning _ => true | _ => false end.
Definition is_metric (c : cmd) : bool :=
  match c with st_metric _ _ => true | _ => false end.

Definition count_cmd (p : cmd -> bool) (out : list cmd) : nat :=
  List.length (filter p out).

(* ================================================================== *)
(** ** The pandas operations the script calls *)

Module pd.

(** [Series.unique]: the distinct values in order of first appearance. *)
Fixpoint unique (l : list Z) : list Z :=
  match l with
  | [] => []
  | x :: l' => x :: filter (fun y => negb (y =? x)) (unique l')
  end.

(** [pd.merge(left, right, left_on=..., right_on=..., how="inner")]: every
    pair of a left row and a right row with equal keys, in the order of the
    left rows. *)
Definition merge_inner {A B : Type} (ka : A -> Z) (kb : B -> Z)
    (left : list A) (right : list B) : list (A * B) :=
  flat_map (fun a => map (pair a) (filter (fun b => ka a =? kb b) right)) left.

(** [DataFrame.sort_values(key, ascending=False)]: rows are inserted from the
    last to the first, each in front of the first row whose key is not
    larger, so rows with equal keys keep their order. *)
Fixpoint insert_desc {A : Type} (key : A -> Z) (r : A) (sorted : list A) : list A :=
  match sorted with
  | [] => [r]
  | r' :: rest =>
      if key r' <=? key r then r :: sorted
      else r' :: insert_desc key r rest
  end.

Definition sort_values_desc {A : Type} (key : A -> Z) (rows : list A) : list A :=
  fold_right (insert_desc key) [] rows.

(** [DataFrame.iloc[0]] *)
Definition iloc0 {A : Type} (rows : list A) : option A := hd_error rows.

(** [groupby(key)[col].mean()]: one pass over the rows adds each value to the
    running sum and count of its group; the groups are kept in increasing key
    order ([sort=True]), and the mean of a group is its sum over its count. *)
Fixpoint group_add (k v : Z) (groups : list (Z * (Z * Z))) : list (Z * (Z * Z)) :=
  match groups with
  | [] => [(k, (v, 1))]
  | (k', (s, n)) :: rest =>
      if k <? k' then (k, (v, 1)) :: groups
      else if k =? k' then (k', (s + v, n + 1)) :: rest
      else (k', (s, n)) :: group_add k v rest
  end.

Definition group_sums (kvs : list (Z * Z)) : list (Z * (Z * Z)) :=
  fold_left (fun g kv => group_add (fst kv) (snd kv) g) kvs [].

Definition groupby_mean (kvs : list (Z * Z)) : list (Z * Q) :=
  map (fun g => (fst g, (inject_Z (fst (snd g)) / inject_Z (snd (snd g)))%Q))
      (group_sums kvs).

(** [DataFrame.corr()] (Pearson, [min_periods=1]): for each pair of columns a
    single pass keeps the running means, the two sums of squared deviations
    and the sum of co-deviations (Welford updates). *)
Record welford := mkWelford {
  nobs : Z;
  meanx : Q;
  meany : Q;
  ssqdm_x : Q;
  ssqdm_y : Q;
  covxy : Q
}.

Definition welford0 : welford := mkWelford 0 0 0 0 0 0.

Definition welford_step (st : welford) (v : Q * Q) : welford :=
  let vx := fst v in
  let vy := snd v in
  let n := nobs st + 1 in
  let dx := (vx - meanx st)%Q in
  let dy := (vy - meany st)%Q in
  let mx := (meanx st + (1 / inject_Z n) * dx)%Q in
  let my := (meany st + (1 / inject_Z n) * dy)%Q in
  mkWelford n mx my
    (ssqdm_x st + (vx - mx) * dx)%Q
    (ssqdm_y st + (vy - my) * dy)%Q
    (covxy st + (vx - mx) * dy)%Q.

Definition welford_run (xs ys : list Q) : welford :=
  fold_left welford_step (combine xs ys) welford0.

(** The entry is NaN with no observation or a zero divisor, and the
    co-deviation over the root of the product of the squared deviations
    otherwise. *)
Definition corr_of (st : welford) : corr_cell :=
  if nobs st <? 1 then None
  else if Qeq_bool (ssqdm_x st * ssqdm_y st) 0 then None
  else Some (Q2R (covxy st) / sqrt (Q2R (ssqdm_x st * ssqdm_y st)))%R.

Definition nancorr (xs ys : list Q) : corr_cell := corr_of (welford_run xs ys).

Definition corr (cols : list (list Q)) : list (list corr_cell) :=
  map (fun cx => map (fun cy => nancorr cx cy) cols) cols.

End pd.

(* ================================================================== *)
(** ** Text formatting *)

Open Scope string_scope.
Open Scope Z_scope.

Definition string_of_Z (z : Z) : string := NilZero.string_of_int (Z.to_int z).

Definition pad2 (z : Z) : string :=
  if z <? 10 then "0" ++ string_of_Z z else string_of_Z z.

Definition pad4 (z : Z) : string :=
  if z <? 10 then "000" ++ string_of_Z z
  else if z <? 100 then "00" ++ string_of_Z z
  else if z <? 1000 then "0" ++ string_of_Z z
  else string_of_Z z.

(** The calendar date of a day number. *)
Definition civil_from_days (z : date) : Z * Z * Z :=
  let z := z + 719468 in
  let era := z / 146097 in
  let doe := z - era * 146097 in
  let yoe := (doe - doe / 1460 + doe / 36524 - doe / 146096) / 365 in
  let doy := doe - (365 * yoe + yoe / 4 - yoe / 100) in
  let mp := (5 * doy + 2) / 153 in
  let d := doy - (153 * mp + 2) / 5 + 1 in
  let m := if mp <? 10 then mp + 3 else mp - 9 in
  let y := yoe + era * 400 in
  (if m <=? 2 then y + 1 else y, m, d).

(** [str(d)] of a [datetime.date], and of [None]. *)
Definition string_of_date (d : date) : string :=
  let '(y, m, dd) := civil_from_days d in
  pad4 y ++ "-" ++ pad2 m ++ "-" ++ pad2 dd.

Definition string_of_selection (d : option date) : string :=
  match d with
  | Some d => string_of_date d
  | None => "None"
  end.

(** Rounding to the nearest integer, ties to the even one. *)
Definition round_half_even (q : Q) : Z :=
  let f := Qfloor q in
  match (q - inject_Z f ?= 1 # 2)%Q with
  | Lt => f
  | Gt => f + 1
  | Eq => if Z.even f then f else f + 1
  end.

(** The value in tenths that [f"{x:.1f}"] prints, and the text. *)
Definition tenths (q : Q) : Z := round_half_even (Qabs q * 10).

Definition format_1f (q : Q) : string :=
  let t := tenths q in
  (if Qle_bool 0 q then "" else "-")
    ++ string_of_Z (t / 10) ++ "." ++ string_of_Z (t mod 10).

(* ================================================================== *)
(** ** The five views *)

Inductive analysis :=
| Daily_Activity
| Sleep_Analysis
| Hourly_Patterns
| Heart_Rate
| Weight_Log.

Definition menu_options : list string :=
  ["Daily Activity"; "Sleep Analysis"; "Hourly Patterns"; "Heart Rate"; "Weight Log"].

(** *** Daily Activity *)

Inductive metric :=
| M_TotalSteps
| M_TotalDistance
| M_Calories
| M_VeryActiveMinutes
| M_FairlyActiveMinutes
| M_LightlyActiveMinutes
| M_SedentaryMinutes.

Definition corr_metrics : list metric :=
  [M_TotalSteps; M_TotalDistance; M_Calories; M_VeryActiveMinutes;
   M_FairlyActiveMinutes; M_LightlyActiveMinutes; M_SedentaryMinutes].

Definition metric_name (m : metric) : string :=
  match m with
  | M_TotalSteps => "TotalSteps"
  | M_TotalDistance => "TotalDistance"
  | M_Calories => "Calories"
  | M_VeryActiveMinutes => "VeryActiveMinutes"
  | M_FairlyActiveMinutes => "FairlyActiveMinutes"
  | M_LightlyActiveMinutes => "LightlyActiveMinutes"
  | M_SedentaryMinutes => "SedentaryMinutes"
  end.

Definition metric_value (m : metric) (r : activity_row) : Q :=
  match m with
  | M_TotalSteps => inject_Z (TotalSteps r)
  | M_TotalDistance => TotalDistance r
  | M_Calories => inject_Z (Calories r)
  | M_VeryActiveMinutes => inject_Z (VeryActiveMinutes r)
  | M_FairlyActiveMinutes => inject_Z (FairlyActiveMinutes r)
  | M_LightlyActiveMinutes => inject_Z (LightlyActiveMinutes r)
  | M_SedentaryMinutes => inject_Z (SedentaryMinutes r)
  end.

Definition metric_column (m : metric) (act : list activity_row) : list Q :=
  map (metric_value m) act.

(** The entry of the correlation table in row [mx], column [my]. *)
Definition corr_entry (act : list activity_row) (mx my : metric) : corr_cell :=
  pd.nancorr (metric_column mx act) (metric_column my act).

Definition corr_matrix (act : list activity_row) : list (list corr_cell) :=
  pd.corr (map (fun m => metric_column m act) corr_metrics).

Definition render_daily_activity (act : list activity_row) : list cmd :=
  [ st_header "📅 Daily Activity Overview";
    st_plotly_chart
      (px_line "Daily Steps Over Time" true None
         (map (fun r => (ActivityDate r, inject_Z (TotalSteps r))) act));
    st_plotly_chart
      (px_scatter_ols "Steps vs Calories Burned"
         (map (fun r => (inject_Z (TotalSteps r), inject_Z (Calories r))) act));
    st_subheader "Correlation between Activity Metrics";
    st_dataframe_blues (map metric_name corr_metrics) (corr_matrix act) ].

(** *** Sleep Analysis *)

(** A Sleep Day row once the [SleepHours] column has been assigned. *)
Record sleep_hours_row := mkSleepHours {
  sh_row : sleep_row;
  SleepHours : Q
}.

(** [sleep_day["SleepHours"] = sleep_day["TotalMinutesAsleep"] / 60] *)
Definition assign_SleepHours (sleep : list sleep_row) : list sleep_hours_row :=
  map (fun r => mkSleepHours r (inject_Z (TotalMinutesAsleep r) / 60)%Q) sleep.

(** [pd.merge(sleep_day, daily_activity, left_on="SleepDay",
    right_on="ActivityDate", how="inner")] *)
Definition merged (sleep : list sleep_hours_row) (act : list activity_row)
  : list (sleep_hours_row * activity_row) :=
  pd.merge_inner (fun s => SleepDay (sh_row s)) (fun a => ActivityDate a) sleep act.

Definition render_sleep (sleep0 : list sleep_row) (act : list activity_row) : list cmd :=
  let sleep := assign_SleepHours sleep0 in
  [ st_header "😴 Sleep Patterns";
    st_plotly_chart
      (px_histogram_box "Distribution of Sleep Hours" 20 (map SleepHours sleep));
    st_plotly_chart
      (px_scatter_ols "Sleep Duration vs Daily Steps"
         (map (fun p => (SleepHours (fst p), inject_Z (TotalSteps (snd p))))
              (merged sleep act))) ].

(** *** Hourly Patterns *)

(** [hourly_steps["Hour"] = hourly_steps["ActivityHour"].dt.hour], paired with
    the column the group-by aggregates. *)
Definition Hour (r : hourly_row) : Z := dt_hour (ActivityHour r).

Definition hour_steps (hourly : list hourly_row) : list (Z * Z) :=
  map (fun r => (Hour r, StepTotal r)) hourly.

Definition avg_steps (hourly : list hourly_row) : list (Z * Q) :=
  pd.groupby_mean (hour_steps hourly).

Definition render_hourly (hourly : list hourly_row) : list cmd :=
  [ st_header "⏰ Hourly Activity Trends";
    st_plotly_chart (px_bar "Average Steps by Hour of Day" (avg_steps hourly)) ].

(** *** Heart Rate *)

Definition available_dates (hr : list heartrate_row) : list date :=
  pd.unique (map (fun r => dt_date (Time r)) hr).

(** [st.selectbox]: the option the user picked, by position (position 0 unless
    the user chose another); [None] when there is no such option. *)
Definition selectbox (options : list date) (choice : nat) : option date :=
  nth_error options choice.

(** [heartrate[heartrate["Time"].dt.date == selected_date]] *)
Definition same_date (selected : option date) (r : heartrate_row) : bool :=
  match selected with
  | Some d => dt_date (Time r) =? d
  | None => false
  end.

Definition hr_day (hr : list heartrate_row) (selected : option date) : list heartrate_row :=
  filter (same_date selected) hr.

Definition render_heart_rate (hr : list heartrate_row) (choice : nat) : list cmd :=
  let dates := available_dates hr in
  let selected_date := selectbox dates choice in
  [ st_header "❤️ Heart Rate Analysis";
    st_selectbox "Choose a date" dates;
    st_plotly_chart
      (px_line ("Heart Rate Throughout " ++ string_of_selection selected_date)
         false None
         (map (fun r => (Time r, inject_Z (Value r))) (hr_day hr selected_date))) ].

(** *** Weight Log *)

Definition latest_weight (w : list weight_row) : option weight_row :=
  pd.iloc0 (pd.sort_values_desc (fun r => Date r) w).

Definition render_weight (w : list weight_row) : list cmd :=
  (st_header "⚖️ Weight & BMI Trends" ::
  match w with
  | [] => [ st_warning "No weight log data available." ]
  | _ :: _ =>
      [ st_plotly_chart
          (px_line "Weight Trend Over Time" true None
             (map (fun r => (Date r, WeightKg r)) w));
        st_plotly_chart
          (px_line "BMI Trend Over Time" true (Some "green")
             (map (fun r => (Date r, BMI r)) w)) ]
      ++ (match latest_weight w with
         | Some r =>
             [ st_metric "Latest Weight (kg)" (format_1f (WeightKg r));
               st_metric "Latest BMI" (format_1f (BMI r)) ]
         | None => []
         end)
  end)%list.

(* ================================================================== *)
(** ** One pass of the script over the loaded tables *)

(** What the user has chosen in the widgets. *)
Record widgets := mkWidgets {
  menu : analysis;
  date_choice : nat
}.

Definition render_view (ui : widgets) (t : tables) : list cmd :=
  match menu ui with
  | Daily_Activity => render_daily_activity (daily_activity t)
  | Sleep_Analysis => render_sleep (sleep_day t) (daily_activity t)
  | Hourly_Patterns => render_hourly (hourly_steps t)
  | Heart_Rate => render_heart_rate (heartrate t) (date_choice ui)
  | Weight_Log => render_weight (weight t)
  end.

Definition script (ui : widgets) (t : tables) : list cmd :=
  ([ st_set_page_config "Fitbit Dashboard";
    st_title "📊 Strava Fitness Dashboard";
    st_markdown
      "Analyze your activity, sleep, calories, weight, and heart rate data interactively.";
    st_sidebar_radio "Select Analysis" menu_options ]
  ++ render_view ui t)%list.

(* ================================================================== *)
(** ** The loader and its cache *)

Module Loader.

Inductive error :=
| FileNotFound (name : string)
| ParseError (text : string).

(** The eight files of the working directory, each absent or a table whose
    date column is still text. *)
Record filesystem := mkFiles {
  dailyActivity_merged : option (list (activity_row_of string));
  dailyCalories_merged : option (list (calories_row_of string));
  dailyIntensities_merged : option (list (intensities_row_of string));
  dailySteps_merged : option (list (steps_row_of string));
  sleepDay_merged : option (list (sleep_row_of string));
  heartrate_seconds_merged : option (list (heartrate_row_of string));
  hourlySteps_merged : option (list (hourly_row_of string));
  weightLogInfo_merged : option (list (weight_row_of string))
}.

(** The process: the files, the names of the files opened so far (latest
    first), the entry [st.cache_data] keeps for [load_data] (the pickled
    return value) and the next unused object identity. *)
Record world := mkWorld {
  fs : filesystem;
  reads : list string;
  cache : option tables;
  next_id : nat
}.

(** What a call hands back: the identity of the tuple, the identities of its
    eight data frames, and their contents. *)
Record loaded := mkLoaded {
  tuple_ref : nat;
  frame_refs : list nat;
  frames : tables
}.

(** State and exceptions. *)
Definition M (A : Type) : Type := world -> world * (error + A).

Definition ret {A : Type} (a : A) : M A := fun w => (w, inr a).

Definition raise {A : Type} (e : error) : M A := fun w => (w, inl e).

Definition bind {A B : Type} (m : M A) (k : A -> M B) : M B :=
  fun w =>
    match m w with
    | (w', inr a) => k a w'
    | (w', inl e) => (w', inl e)
    end.

Notation "x <- m ;; k" := (bind m (fun x => k))
  (at level 61, m at next level, right associativity).

(** A new object. *)
Definition alloc : M nat :=
  fun w => (mkWorld (fs w) (reads w) (cache w) (S (next_id w)), inr (next_id w)).

Definition log_read (name : string) : M unit :=
  fun w => (mkWorld (fs w) (name :: reads w) (cache w) (next_id w), inr tt).

(** [pd.read_csv(name)]: opens the file and builds a new data frame. *)
Definition read_csv {A : Type} (name : string) (file : filesystem -> option A)
  : M (nat * A) :=
  _ <- log_read name ;;
  fun w =>
    match file (fs w) with
    | Some rows => (id <- alloc ;; ret (id, rows)) w
    | None => raise (FileNotFound name) w
    end.

(** The names [load_data] opens, in its order. *)
Definition file_names : list string :=
  [ "dailyActivity_merged.csv"; "dailyCalories_merged.csv";
    "dailyIntensities_merged.csv"; "dailySteps_merged.csv";
    "sleepDay_merged.csv"; "heartrate_seconds_merged.csv";
    "hourlySteps_merged.csv"; "weightLogInfo_merged.csv" ].

Section Load.

(** The text-to-timestamp conversion of [pd.to_datetime]. *)
Variable to_datetime : string -> option timestamp.

(** [frame[col] = pd.to_datetime(frame[col])]: every cell of the column is
    converted, the first one that cannot be raises. *)
Fixpoint convert {A B : Type} (get : A -> string) (set : A -> timestamp -> B)
    (rows : list A) : M (list B) :=
  match rows with
  | [] => ret []
  | r :: rows' =>
      match to_datetime (get r) with
      | Some t => rest <- convert get set rows' ;; ret (set r t :: rest)
      | None => raise (ParseError (get r))
      end
  end.

Definition load_data : M loaded :=
  a <- read_csv "dailyActivity_merged.csv" dailyActivity_merged ;;
  c <- read_csv "dailyCalories_merged.csv" dailyCalories_merged ;;
  i <- read_csv "dailyIntensities_merged.csv" dailyIntensities_merged ;;
  s <- read_csv "dailySteps_merged.csv" dailySteps_merged ;;
  sl <- read_csv "sleepDay_merged.csv" sleepDay_merged ;;
  h <- read_csv "heartrate_seconds_merged.csv" heartrate_seconds_merged ;;
  hs <- read_csv "hourlySteps_merged.csv" hourlySteps_merged ;;
  w <- read_csv "weightLogInfo_merged.csv" weightLogInfo_merged ;;
  a' <- convert (@ActivityDate string)
          (fun r t => mkActivity t (TotalSteps r) (TotalDistance r) (Calories r)
                        (VeryActiveMinutes r) (FairlyActiveMinutes r)
                        (LightlyActiveMinutes r) (SedentaryMinutes r)) (snd a) ;;
  c' <- convert (@cal_ActivityDay string)
          (fun r t => mkCalories t (cal_Calories r)) (snd c) ;;
  i' <- convert (@int_ActivityDay string)
          (fun r t => mkIntensities t (int_SedentaryMinutes r)
                        (int_LightlyActiveMinutes r) (int_FairlyActiveMinutes r)
                        (int_VeryActiveMinutes r)) (snd i) ;;
  s' <- convert (@st_ActivityDay string)
          (fun r t => mkSteps t (st_StepTotal r)) (snd s) ;;
  sl' <- convert (@SleepDay string)
          (fun r t => mkSleep t (TotalMinutesAsleep r)) (snd sl) ;;
  h' <- convert (@Time string)
          (fun r t => mkHeartrate t (Value r)) (snd h) ;;
  hs' <- convert (@ActivityHour string)
          (fun r t => mkHourly t (StepTotal r)) (snd hs) ;;
  w' <- convert (@Date string)
          (fun r t => mkWeight t (WeightKg r) (BMI r)) (snd w) ;;
  tup <- alloc ;;
  ret (mkLoaded tup
         [fst a; fst c; fst i; fst s; fst sl; fst h; fst hs; fst w]
         (mkTables a' c' i' s' sl' h' hs' w')).

(** Reading the cache entry back ([pickle.loads]) builds eight new data
    frames and a new tuple around them. *)
Fixpoint alloc_many (n : nat) : M (list nat) :=
  match n with
  | O => ret []
  | S n' => id <- alloc ;; ids <- alloc_many n' ;; ret (id :: ids)
  end.

Definition unpickle (t : tables) : M loaded :=
  ids <- alloc_many 8 ;;
  tup <- alloc ;;
  ret (mkLoaded tup ids t).

Definition store (t : tables) : M unit :=
  fun w => (mkWorld (fs w) (reads w) (Some t) (next_id w), inr tt).

(** [load_data] under [@st.cache_data]: a miss runs the function, stores its
    pickled result and returns the result itself; a hit returns a new copy
    read back from the entry. *)
Definition load_data_cached : M loaded :=
  fun w =>
    match cache w with
    | Some t => unpickle t w
    | None => (l <- load_data ;; _ <- store (frames l) ;; ret l) w
    end.

(** One run of the whole script: the load, then the page. *)
Definition run_script (ui : widgets) : M (list cmd) :=
  l <- load_data_cached ;;
  ret (script ui (frames l)).

End Load.

(** A converter for the [YYYY-MM-DD] form, one of the forms [pd.to_datetime]
    accepts. *)
Definition digit_of (c : ascii) : option Z :=
  let n := Z.of_N (N_of_ascii c) in
  if (48 <=? n) && (n <=? 57) then Some (n - 48) else None.

Fixpoint number_of (s : string) (acc : Z) : option Z :=
  match s with
  | EmptyString => Some acc
  | String c s' =>
      match digit_of c with
      | Some d => number_of s' (10 * acc + d)
      | None => None
      end
  end.

Definition is_leap (y : Z) : bool :=
  ((y mod 4 =? 0) && negb (y mod 100 =? 0)) || (y mod 400 =? 0).

Definition days_in_month (y m : Z) : Z :=
  if m =? 2 then (if is_leap y then 29 else 28)
  else if (m =? 4) || (m =? 6) || (m =? 9) || (m =? 11) then 30
  else 31.

Definition to_datetime_iso (s : string) : option timestamp :=
  match number_of (substring 0 4 s) 0,
        number_of (substring 5 2 s) 0,
        number_of (substring 8 2 s) 0 with
  | Some y, Some m, Some d =>
      if (String.length s =? 10)%nat
         && (substring 4 1 s =? "-")%string && (substring 7 1 s =? "-")%string
         && (1 <=? m) && (m <=? 12) && (1 <=? d) && (d <=? days_in_month y m)
      then Some (midnight y m d)
      else None
  | _, _, _ => None
  end.

End Loader.

(* ================================================================== *)
(** ** Vocabulary of the properties *)

(** Rows in descending order of their key; keys in strictly increasing
    order. *)
Definition descending {A : Type} (key : A -> Z) (rows : list A) : Prop :=
  StronglySorted (fun a b => key b <= key a) rows.

Definition increasing (keys : list Z) : Prop := StronglySorted Z.lt keys.

(** The values of the rows whose key is [k], in row order. *)
Definition bucket (k : Z) (kvs : list (Z * Z)) : list Z :=
  map snd (filter (fun kv => fst kv =? k) kvs).

Definition sum_Z (l : list Z) : Z := fold_right Z.add 0 l.



(** The arithmetic mean of a non-empty list. *)
Definition mean (l : list Z) : Q :=
  (inject_Z (sum_Z l) / inject_Z (Z.of_nat (List.length l)))%Q.

Definition hours_of_day : list Z :=
  [0; 1; 2; 3; 4; 5; 6; 7; 8; 9; 10; 11; 12; 13; 14; 15; 16; 17; 18; 19; 20;
   21; 22; 23].

(** The StepTotal values of the rows of hour [h]. *)
Definition hour_bucket (h : Z) (hourly : list hourly_row) : list Z :=
  bucket h (hour_steps hourly).

Definition hour_occurs (hourly : list hourly_row) (h : Z) : bool :=
  existsb (fun r => Hour r =? h) hourly.

(** The running sum and count of group [k], if the group exists. *)
Fixpoint group_get (k : Z) (groups : list (Z * (Z * Z))) : option (Z * Z) :=
  match groups with
  | [] => None
  | (k', x) :: rest => if k =? k' then Some x else group_get k rest
  end.

(** The position of a metric in the correlation table, and the entry a
    metric has against itself there. *)
Definition metric_index (m : metric) : nat :=
  match m with
  | M_TotalSteps => 0
  | M_TotalDistance => 1
  | M_Calories => 2
  | M_VeryActiveMinutes => 3
  | M_FairlyActiveMinutes => 4
  | M_LightlyActiveMinutes => 5
  | M_SedentaryMinutes => 6
  end.



(* ================================================================== *)
(** ** Example tables *)

Module Examples.

(** Two nights and two activity days, all on 2016-04-12 (two users). *)
Definition sleep_same_day : list sleep_row :=
  [ mkSleep (midnight 2016 4 12) 327; mkSleep (midnight 2016 4 12) 412 ].

Definition activity_same_day : list activity_row :=
  [ mkActivity (midnight 2016 4 12) 13162 (85 # 10) 1985 25 13 328 728;
    mkActivity (midnight 2016 4 12) 10735 (697 # 100) 1797 21 19 217 776 ].

(** One user: a night per day, an activity row per day. *)
Definition sleep_one_user : list sleep_row :=
  [ mkSleep (midnight 2016 4 12) 327; mkSleep (midnight 2016 4 13) 384;
    mkSleep (midnight 2016 4 15) 412 ].

Definition activity_one_user : list activity_row :=
  [ mkActivity (midnight 2016 4 12) 13162 (85 # 10) 1985 25 13 328 728;
    mkActivity (midnight 2016 4 13) 10735 (697 # 100) 1797 21 19 217 776;
    mkActivity (midnight 2016 4 14) 10460 (674 # 100) 1776 30 11 181 1218 ].

(** The Weight Log of the specification's example. *)
Definition weight_two_days : list weight_row :=
  [ mkWeight (midnight 2024 1 1) (700 # 10) (220 # 10);
    mkWeight (midnight 2024 1 3) (695 # 10) (218 # 10) ].

(** One reading, at 08:00. *)
Definition hourly_one_row : list hourly_row :=
  [ mkHourly (mk_timestamp 2016 4 12 8 0 0) 1251 ].

(** Readings at 08:00 and 09:00 on two days, the later day first. *)
Definition hourly_two_days : list hourly_row :=
  [ mkHourly (mk_timestamp 2016 4 13 9 0 0) 300;
    mkHourly (mk_timestamp 2016 4 13 8 0 0) 100;
    mkHourly (mk_timestamp 2016 4 12 9 0 0) 0;
    mkHourly (mk_timestamp 2016 4 12 8 0 0) 1251 ].


(** A working directory with the eight files, and a process that has just
    started: nothing read, nothing cached. *)
Definition files_on_disk : Loader.filesystem :=
  Loader.mkFiles
    (Some [ mkActivity "2016-04-12" 13162 (85 # 10) 1985 25 13 328 728 ])
    (Some [ mkCalories "2016-04-12" 1985 ])
    (Some [ mkIntensities "2016-04-12" 728 328 13 25 ])
    (Some [ mkSteps "2016-04-12" 13162 ])
    (Some [ mkSleep "2016-04-12" 327 ])
    (Some [ mkHeartrate "2016-04-12" 97 ])
    (Some [ mkHourly "2016-04-12" 373 ])
    (Some [ mkWeight "2024-01-01" (700 # 10) (220 # 10);
            mkWeight "2024-01-03" (695 # 10) (218 # 10) ]).

Definition fresh_process : Loader.world :=
  Loader.mkWorld files_on_disk [] None 0.

(** The same directory with a date that cannot be read in a file no view
    uses. *)
Definition files_bad_calories : Loader.filesystem :=
  Loader.mkFiles
    (Loader.dailyActivity_merged files_on_disk)
    (Some [ mkCalories "yesterday" 1985 ])
    (Loader.dailyIntensities_merged files_on_disk)
    (Loader.dailySteps_merged files_on_disk)
    (Loader.sleepDay_merged files_on_disk)
    (Loader.heartrate_seconds_merged files_on_disk)
    (Loader.hourlySteps_merged files_on_disk)
    (Loader.weightLogInfo_merged files_on_disk).

End Examples.

(* ================================================================== *)
(** ** Vocabulary of the further properties *)

Definition is_header (c : cmd) : bool :=
  match c with st_header _ => true | _ => false end.

Definition is_dataframe (c : cmd) : bool :=
  match c with st_dataframe_blues _ _ => true | _ => false end.

Definition is_selectbox (c : cmd) : bool :=
  match c with st_selectbox _ _ => true | _ => false end.

(** The header each view opens with. *)
Definition header_of (m : analysis) : string :=
  match m with
  | Daily_Activity => "📅 Daily Activity Overview"
  | Sleep_Analysis => "😴 Sleep Patterns"
  | Hourly_Patterns => "⏰ Hourly Activity Trends"
  | Heart_Rate => "❤️ Heart Rate Analysis"
  | Weight_Log => "⚖️ Weight & BMI Trends"
  end.

(** The number of charts of a pass. *)
Definition charts_of (m : analysis) (t : tables) : nat :=
  match m with
  | Daily_Activity => 2
  | Sleep_Analysis => 2
  | Hourly_Patterns => 1
  | Heart_Rate => 1
  | Weight_Log => match weight t with [] => 0 | _ :: _ => 2 end
  end.






(** The cell of the correlation table in the row of [mx] and the column of
    [my]. *)
Definition cell (act : list activity_row) (mx my : metric) : corr_cell :=
  nth (metric_index my) (nth (metric_index mx) (corr_matrix act) []) None.

(** Two passes over the same rows with the two columns exchanged. *)
Definition mirror (st st' : pd.welford) : Prop :=
  pd.nobs st = pd.nobs st'
  /\ pd.meanx st = pd.meany st'
  /\ pd.meany st = pd.meanx st'
  /\ pd.ssqdm_x st = pd.ssqdm_y st'
  /\ pd.ssqdm_y st = pd.ssqdm_x st'
  /\ (pd.covxy st == pd.covxy st')%Q.


(** Whether an activity row exists for the date of a night. *)
Definition has_activity (act : list activity_row) (s : sleep_hours_row) : bool :=
  existsb (fun a => SleepDay (sh_row s) =? ActivityDate a) act.

Module LoaderSpec.

Import Loader.


Definition absent {A : Type} (name : string) (file : option A) : list string :=
  match file with
  | Some _ => []
  | None => [name]
  end.

(** The names of the files that are not there, in the order [load_data]
    opens them. *)
Definition missing_files (f : filesystem) : list string :=
  (absent "dailyActivity_merged.csv" (dailyActivity_merged f)
   ++ absent "dailyCalories_merged.csv" (dailyCalories_merged f)
   ++ absent "dailyIntensities_merged.csv" (dailyIntensities_merged f)
   ++ absent "dailySteps_merged.csv" (dailySteps_merged f)
   ++ absent "sleepDay_merged.csv" (sleepDay_merged f)
   ++ absent "heartrate_seconds_merged.csv" (heartrate_seconds_merged f)
   ++ absent "hourlySteps_merged.csv" (hourlySteps_merged f)
   ++ absent "weightLogInfo_merged.csv" (weightLogInfo_merged f))%list.

(** The names opened up to and including [name]. *)
Fixpoint opened_until (name : string) (names : list string) : list string :=
  match names with
  | [] => []
  | n :: rest => if (n =? name)%string then [n] else n :: opened_until name rest
  end.


Section Spec.

Variable to_datetime : string -> option timestamp.





End Spec.

(** The world changes a call may make: the files stay, the log of opened
    files only grows at its front, identities are never handed out twice,
    and the cache entry, once there, stays as it is. *)
Definition extends (w w' : world) : Prop :=
  fs w' = fs w
  /\ (exists opened, reads w' = (opened ++ reads w)%list)
  /\ (next_id w <= next_id w')%nat
  /\ (forall t, cache w = Some t -> cache w' = Some t).

(** A computation that leaves the files and the cache alone. *)
Definition frame_only {A : Type} (m : M A) : Prop :=
  forall w, extends w (fst (m w)) /\ cache (fst (m w)) = cache w.

End LoaderSpec.

Module MoreExamples.

(** A directory without the sleep file and without the weight file. *)
Definition files_without_sleep : Loader.filesystem :=
  Loader.mkFiles
    (Loader.dailyActivity_merged Examples.files_on_disk)
    (Loader.dailyCalories_merged Examples.files_on_disk)
    (Loader.dailyIntensities_merged Examples.files_on_disk)
    (Loader.dailySteps_merged Examples.files_on_disk)
    None
    (Loader.heartrate_seconds_merged Examples.files_on_disk)
    (Loader.hourlySteps_merged Examples.files_on_disk)
    None.

(** Heart-rate readings on two days, the days interleaved. *)
Definition heartrate_two_days : list heartrate_row :=
  [ mkHeartrate (mk_timestamp 2016 4 12 7 21 0) 97;
    mkHeartrate (mk_timestamp 2016 4 13 0 0 5) 61;
    mkHeartrate (mk_timestamp 2016 4 12 7 21 5) 102 ].

(** Loaded tables for a pass. *)
Definition loaded_tables : tables :=
  mkTables Examples.activity_one_user [] [] [] Examples.sleep_one_user
    heartrate_two_days Examples.hourly_two_days Examples.weight_two_days.

End MoreExamples.

(* ================================================================== *)
(** * Properties *)

(** ** Timestamps *)

Lemma dt_hour_range (t : timestamp) : 0 <= dt_hour t < 24.
Proof.
  unfold dt_hour.
  assert (Hm : 0 <= t mod ns_per_day < ns_per_day)
    by (apply Z.mod_pos_bound; reflexivity).
  split.
  - apply Z.div_pos; [lia | reflexivity].
  - apply Z.div_lt_upper_bound; [reflexivity |].
    change (ns_per_hour * 24) with ns_per_day. lia.
Qed.

Example epoch_day : days_from_civil 1970 1 1 = 0.
Proof. reflexivity. Qed.

Example day_2024_01_03 : dt_date (mk_timestamp 2024 1 3 17 30 0) = 19725.
Proof. reflexivity. Qed.

Example hour_2016_04_12 : dt_hour (mk_timestamp 2016 4 12 23 59 59) = 23.
Proof. reflexivity. Qed.

Example hour_before_epoch : dt_hour (-1) = 23 /\ dt_date (-1) = -1.
Proof. split; reflexivity. Qed.

Example date_text : string_of_date (dt_date (mk_timestamp 2016 4 12 7 21 0)) = "2016-04-12".
Proof. reflexivity. Qed.

(** ** The inner join *)

Section MergeInner.

Context {A B : Type}.
Variable ka : A -> Z.
Variable kb : B -> Z.

Lemma merge_inner_In (left : list A) (right : list B) (a : A) (b : B) :
  In (a, b) (pd.merge_inner ka kb left right)
  <-> In a left /\ In b right /\ ka a = kb b.
Proof.
  unfold pd.merge_inner. rewrite in_flat_map. split.
  - intros [a' [Ha Hin]]. apply in_map_iff in Hin.
    destruct Hin as [b' [Heq Hb]]. inversion Heq; subst.
    apply filter_In in Hb. destruct Hb as [Hb Hk].
    apply Z.eqb_eq in Hk. auto.
  - intros [Ha [Hb Hk]]. exists a. split; [exact Ha |].
    apply in_map. apply filter_In. split; [exact Hb |].
    now apply Z.eqb_eq.
Qed.

Lemma merge_inner_cons (a : A) (left : list A) (right : list B) :
  List.length (pd.merge_inner ka kb (a :: left) right)
  = (List.length (filter (fun b => (ka a =? kb b)%Z) right)
     + List.length (pd.merge_inner ka kb left right))%nat.
Proof.
  unfold pd.merge_inner. simpl. now rewrite length_app, length_map.
Qed.

Lemma merge_inner_length_mul (left : list A) (right : list B) :
  (List.length (pd.merge_inner ka kb left right)
   <= List.length left * List.length right)%nat.
Proof.
  induction left as [| a left IH].
  - apply Nat.le_refl.
  - rewrite merge_inner_cons. simpl.
    pose proof (filter_length_le (fun b => ka a =? kb b) right). lia.
Qed.

Lemma unique_key_matches_once (k : Z) (right : list B) :
  NoDup (map kb right) ->
  (List.length (filter (fun b => (k =? kb b)%Z) right) <= 1)%nat.
Proof.
  induction right as [| b right IH]; simpl; intros Hnd.
  - lia.
  - inversion Hnd as [| ? ? Hnotin Hnd']; subst.
    destruct (k =? kb b) eqn:Hk.
    + apply Z.eqb_eq in Hk. subst k.
      assert (Hnone : filter (fun b' => kb b =? kb b') right = []).
      { apply length_zero_iff_nil.
        destruct (filter (fun b' => kb b =? kb b') right) as [| b' rest] eqn:Hf;
          [reflexivity |].
        assert (Hin : In b' (filter (fun b' => kb b =? kb b') right))
          by (rewrite Hf; now left).
        apply filter_In in Hin. destruct Hin as [Hin Heq].
        apply Z.eqb_eq in Heq. exfalso. apply Hnotin.
        rewrite Heq. now apply in_map. }
      rewrite Hnone. simpl. lia.
    + now apply IH.
Qed.

Lemma merge_inner_length_unique_right (left : list A) (right : list B) :
  NoDup (map kb right) ->
  (List.length (pd.merge_inner ka kb left right) <= List.length left)%nat.
Proof.
  intros Hnd. induction left as [| a left IH].
  - apply Nat.le_refl.
  - rewrite merge_inner_cons. simpl.
    pose proof (unique_key_matches_once (ka a) right Hnd). lia.
Qed.

End MergeInner.

Lemma merge_inner_length_swap {A B : Type} (ka : A -> Z) (kb : B -> Z)
    (left : list A) (right : list B) :
  List.length (pd.merge_inner ka kb left right)
  = List.length (pd.merge_inner kb ka right left).
Proof.
  induction left as [| a left IH].
  - simpl. induction right as [| b right IHr]; [reflexivity |].
    rewrite merge_inner_cons. simpl. exact IHr.
  - rewrite merge_inner_cons, IH. clear IH.
    induction right as [| b right IHr]; [reflexivity |].
    rewrite !merge_inner_cons. simpl.
    rewrite (Z.eqb_sym (kb b) (ka a)).
    destruct (ka a =? kb b); simpl; lia.
Qed.

Lemma merge_inner_length_unique_left {A B : Type} (ka : A -> Z) (kb : B -> Z)
    (left : list A) (right : list B) :
  NoDup (map ka left) ->
  (List.length (pd.merge_inner ka kb left right) <= List.length right)%nat.
Proof.
  intros Hnd. rewrite merge_inner_length_swap.
  now apply merge_inner_length_unique_right.
Qed.

(** ** Sleep Analysis *)

Lemma assign_SleepHours_length (sleep : list sleep_row) :
  List.length (assign_SleepHours sleep) = List.length sleep.
Proof. unfold assign_SleepHours. apply length_map. Qed.

Lemma assign_SleepHours_days (sleep : list sleep_row) :
  map (fun s => SleepDay (sh_row s)) (assign_SleepHours sleep)
  = map (fun r => SleepDay r) sleep.
Proof. unfold assign_SleepHours. rewrite map_map. reflexivity. Qed.

(** C1, as stated, fails: with two nights and two activity rows on one date
    the join has four rows, more than the smaller table. *)
Lemma merged_row_count_exceeds_min :
  ~ (forall (sleep : list sleep_row) (act : list activity_row),
       (List.length (merged (assign_SleepHours sleep) act)
        <= Nat.min (List.length sleep) (List.length act))%nat
       /\ Forall (fun p => SleepDay (sh_row (fst p)) = ActivityDate (snd p))
                 (merged (assign_SleepHours sleep) act)).
Proof.
  intros H.
  destruct (H Examples.sleep_same_day Examples.activity_same_day) as [Hlen _].
  vm_compute in Hlen. lia.
Qed.

(** C1, amended: the join of Sleep Day and Daily Activity on
    SleepDay = ActivityDate holds exactly the pairs of a sleep row and an
    activity row with equal dates; every output row's SleepDay equals its
    ActivityDate; the row count is at most |Sleep Day| * |Daily Activity|, at
    most |Sleep Day| when no ActivityDate repeats and at most
    |Daily Activity| when no SleepDay repeats. *)
Theorem merged_rows (sleep : list sleep_row) (act : list activity_row) :
  let m := merged (assign_SleepHours sleep) act in
  (forall s a, In (s, a) m
     <-> In s (assign_SleepHours sleep) /\ In a act
         /\ SleepDay (sh_row s) = ActivityDate a)
  /\ Forall (fun p => SleepDay (sh_row (fst p)) = ActivityDate (snd p)) m
  /\ (List.length m <= List.length sleep * List.length act)%nat
  /\ (NoDup (map (fun a => ActivityDate a) act) ->
      (List.length m <= List.length sleep)%nat)
  /\ (NoDup (map (fun r => SleepDay r) sleep) ->
      (List.length m <= List.length act)%nat).
Proof.
  intros m. unfold m, merged. split; [| split; [| split; [| split]]].
  - intros s a.
    apply (merge_inner_In (fun s => SleepDay (sh_row s)) (fun a => ActivityDate a)).
  - apply Forall_forall. intros [s a] Hin.
    apply merge_inner_In in Hin. simpl. tauto.
  - rewrite <- (assign_SleepHours_length sleep). apply merge_inner_length_mul.
  - intros Hnd. rewrite <- (assign_SleepHours_length sleep).
    now apply merge_inner_length_unique_right.
  - intros Hnd. apply merge_inner_length_unique_left.
    now rewrite assign_SleepHours_days.
Qed.

Lemma merged_rows_witness :
  (List.length (merged (assign_SleepHours Examples.sleep_one_user)
                       Examples.activity_one_user)
   <= Nat.min (List.length Examples.sleep_one_user)
              (List.length Examples.activity_one_user))%nat.
Proof.
  destruct (merged_rows Examples.sleep_one_user Examples.activity_one_user)
    as (_ & _ & _ & Hact & Hsleep).
  apply Nat.min_glb.
  - apply Hact. vm_compute.
    repeat (constructor; [simpl; intuition discriminate |]). constructor.
  - apply Hsleep. vm_compute.
    repeat (constructor; [simpl; intuition discriminate |]). constructor.
Defined.



Example SleepHours_327 :
  map SleepHours (assign_SleepHours Examples.sleep_same_day)
  = [(327 / 60)%Q; (412 / 60)%Q].
Proof. reflexivity. Qed.

(** ** Heart Rate *)

Lemma unique_In (x : Z) (l : list Z) : In x (pd.unique l) <-> In x l.
Proof.
  induction l as [| y l IH]; simpl; [tauto |].
  rewrite filter_In, IH, negb_true_iff, Z.eqb_neq.
  destruct (Z.eq_dec y x); intuition congruence.
Qed.

Lemma unique_NoDup (l : list Z) : NoDup (pd.unique l).
Proof.
  induction l as [| y l IH]; simpl; constructor.
  - rewrite filter_In, negb_true_iff, Z.eqb_neq. tauto.
  - now apply NoDup_filter.
Qed.

(** Every date the selector offers is the date of some row. *)
Lemma selectbox_offers_row_dates (hr : list heartrate_row) (choice : nat) (d : date) :
  selectbox (available_dates hr) choice = Some d ->
  In d (map (fun r => dt_date (Time r)) hr).
Proof.
  unfold selectbox, available_dates. intros H.
  apply nth_error_In in H. exact (proj1 (unique_In _ _) H).
Qed.

Lemma hr_day_In (hr : list heartrate_row) (d : date) (r : heartrate_row) :
  In r (hr_day hr (Some d)) <-> In r hr /\ dt_date (Time r) = d.
Proof.
  unfold hr_day, same_date. rewrite filter_In, Z.eqb_eq. reflexivity.
Qed.

Lemma hr_day_nonempty (hr : list heartrate_row) (d : date) :
  In d (map (fun r => dt_date (Time r)) hr) -> hr_day hr (Some d) <> [].
Proof.
  intros Hin. apply in_map_iff in Hin. destruct Hin as [r [Hd Hr]].
  intros Hnil. assert (Hr' : In r (hr_day hr (Some d))) by (apply hr_day_In; auto).
  rewrite Hnil in Hr'. exact Hr'.
Qed.

(** C5: for a selected date that is the date of at least one heart-rate
    row, the filtered rows are not empty, are exactly the rows of the table
    with that date, and so all carry the selected date. *)
Theorem hr_day_of_present_date (hr : list heartrate_row) (d : date) :
  In d (map (fun r => dt_date (Time r)) hr) ->
  hr_day hr (Some d) <> []
  /\ Forall (fun r => dt_date (Time r) = d) (hr_day hr (Some d))
  /\ forall r, In r (hr_day hr (Some d)) <-> In r hr /\ dt_date (Time r) = d.
Proof.
  intros Hin. split; [| split].
  - now apply hr_day_nonempty.
  - apply Forall_forall. intros r Hr. now apply hr_day_In in Hr.
  - intros r. apply hr_day_In.
Qed.

Lemma hr_day_of_present_date_witness :
  hr_day [ mkHeartrate (mk_timestamp 2016 4 12 7 21 0) 97;
           mkHeartrate (mk_timestamp 2016 4 13 0 0 5) 61;
           mkHeartrate (mk_timestamp 2016 4 12 7 21 5) 102 ]
         (Some (days_from_civil 2016 4 12)) <> [].
Proof.
  apply hr_day_of_present_date. vm_compute. left. reflexivity.
Defined.

Example hr_day_keeps_row_order :
  map (fun r => Value r)
      (hr_day [ mkHeartrate (mk_timestamp 2016 4 12 7 21 0) 97;
                mkHeartrate (mk_timestamp 2016 4 13 0 0 5) 61;
                mkHeartrate (mk_timestamp 2016 4 12 7 21 5) 102 ]
              (Some (days_from_civil 2016 4 12)))
  = [97; 102].
Proof. reflexivity. Qed.

(** The chart of the Heart Rate view is never empty for a date picked from
    the selector. *)
Corollary render_heart_rate_selected (hr : list heartrate_row) (choice : nat) (d : date) :
  selectbox (available_dates hr) choice = Some d ->
  hr_day hr (selectbox (available_dates hr) choice) <> [].
Proof.
  intros H. rewrite H.
  apply hr_day_nonempty. eapply selectbox_offers_row_dates. exact H.
Qed.

(** ** Weight Log *)

(** C4: with an empty Weight Log the view is its header followed by the
    warning, so a pass whose menu is on Weight Log issues exactly one warning,
    no chart and no metric. *)
Theorem weight_empty_warns_only (ui : widgets) (t : tables) :
  menu ui = Weight_Log ->
  weight t = [] ->
  render_weight (weight t)
  = [ st_header "⚖️ Weight & BMI Trends";
      st_warning "No weight log data available." ]
  /\ count_cmd is_warning (script ui t) = 1%nat
  /\ count_cmd is_chart (script ui t) = 0%nat
  /\ count_cmd is_metric (script ui t) = 0%nat.
Proof.
  intros Hmenu Hempty. unfold script, render_view.
  rewrite Hmenu, Hempty. repeat split; reflexivity.
Qed.

Lemma weight_empty_warns_only_witness :
  count_cmd is_warning
    (script (mkWidgets Weight_Log 0) (mkTables [] [] [] [] [] [] [] [])) = 1%nat
  /\ count_cmd is_chart
       (script (mkWidgets Weight_Log 0) (mkTables [] [] [] [] [] [] [] [])) = 0%nat.
Proof.
  destruct (weight_empty_warns_only (mkWidgets Weight_Log 0)
              (mkTables [] [] [] [] [] [] [] []) eq_refl eq_refl)
    as (_ & Hw & Hc & _).
  split; [exact Hw | exact Hc].
Defined.

Section SortDesc.

Context {A : Type}.
Variable key : A -> Z.

Lemma insert_desc_perm (r : A) (rows : list A) :
  Permutation (pd.insert_desc key r rows) (r :: rows).
Proof.
  induction rows as [| r' rows IH]; simpl.
  - apply Permutation_refl.
  - destruct (key r' <=? key r).
    + apply Permutation_refl.
    + eapply perm_trans; [apply perm_skip, IH | apply perm_swap].
Qed.

Lemma sort_values_desc_perm (rows : list A) :
  Permutation (pd.sort_values_desc key rows) rows.
Proof.
  induction rows as [| r rows IH]; simpl.
  - apply perm_nil.
  - eapply perm_trans; [apply insert_desc_perm | now apply perm_skip].
Qed.

Lemma insert_desc_descending (r : A) (rows : list A) :
  descending key rows -> descending key (pd.insert_desc key r rows).
Proof.
  unfold descending. induction rows as [| r' rows IH]; simpl; intros Hs.
  - repeat constructor.
  - inversion Hs as [| ? ? Hrest Hall]; subst.
    destruct (key r' <=? key r) eqn:Hle.
    + apply Z.leb_le in Hle. constructor; [exact Hs |].
      constructor; [exact Hle |].
      eapply Forall_impl; [| exact Hall]. simpl. intros; lia.
    + apply Z.leb_gt in Hle. constructor; [now apply IH |].
      eapply Permutation_Forall;
        [apply Permutation_sym, insert_desc_perm |].
      constructor; [lia | exact Hall].
Qed.

Lemma sort_values_desc_descending (rows : list A) :
  descending key (pd.sort_values_desc key rows).
Proof.
  induction rows as [| r rows IH]; simpl.
  - constructor.
  - now apply insert_desc_descending.
Qed.

(** Row 0 of a non-empty table sorted by descending key is a row of the
    table whose key no other row exceeds. *)
Lemma iloc0_sort_values_desc (rows : list A) :
  rows <> [] ->
  exists r, pd.iloc0 (pd.sort_values_desc key rows) = Some r
            /\ In r rows
            /\ forall r', In r' rows -> key r' <= key r.
Proof.
  intros Hne.
  pose proof (sort_values_desc_perm rows) as Hperm.
  pose proof (sort_values_desc_descending rows) as Hsorted.
  destruct (pd.sort_values_desc key rows) as [| r sorted] eqn:Hs.
  - apply Permutation_nil in Hperm. contradiction.
  - exists r. split; [reflexivity | split].
    + eapply Permutation_in; [exact Hperm | now left].
    + intros r' Hr'. apply Permutation_sym in Hperm.
      apply (Permutation_in _ Hperm) in Hr'.
      inversion Hsorted as [| ? ? _ Hall]; subst.
      destruct Hr' as [-> | Hr']; [lia |].
      rewrite Forall_forall in Hall. now apply Hall.
Qed.

End SortDesc.



Lemma tenths_nonneg (q : Q) : 0 <= tenths q.
Proof.
  unfold tenths, round_half_even.
  assert (Hf : 0 <= Qfloor (Qabs q * 10)).
  { change 0 with (Qfloor 0). apply Qfloor_resp_le.
    pose proof (Qabs_nonneg q). lra. }
  destruct (_ ?= _)%Q; [destruct (Z.even _) | |]; lia.
Qed.

Lemma latest_weight_spec (w : list weight_row) :
  w <> [] ->
  exists r, latest_weight w = Some r
            /\ In r w
            /\ forall r', In r' w -> Date r' <= Date r.
Proof. apply (iloc0_sort_values_desc (fun r : weight_row => Date r)). Qed.

Example format_1f_samples :
  format_1f (695 # 10) = "69.5" /\ format_1f (2184 # 100) = "21.8"
  /\ format_1f (70 # 1) = "70.0" /\ format_1f (1 # 4) = "0.2"
  /\ format_1f (3 # 4) = "0.8" /\ format_1f (- (4 # 100)) = "-0.0".
Proof. repeat split; reflexivity. Qed.



(** ** The group-by *)

Lemma increasing_ext (l1 l2 : list Z) :
  increasing l1 -> increasing l2 ->
  (forall x, In x l1 <-> In x l2) -> l1 = l2.
Proof.
  unfold increasing. intros H1. revert l2.
  induction H1 as [| a l1 Hs1 IH Ha]; intros l2 H2 Hext.
  - destruct l2 as [| b l2]; [reflexivity |].
    exfalso. apply (proj2 (Hext b)). now left.
  - destruct H2 as [| b l2 Hs2 Hb].
    + exfalso. apply (proj1 (Hext a)). now left.
    + rewrite Forall_forall in Ha, Hb.
      assert (Hab : a = b).
      { destruct (proj1 (Hext a) (or_introl eq_refl)) as [E | Hin]; [auto |].
        destruct (proj2 (Hext b) (or_introl eq_refl)) as [E | Hin']; [auto |].
        specialize (Ha _ Hin'). specialize (Hb _ Hin). lia. }
      subst b. f_equal. apply IH; [exact Hs2 |].
      intros x. split; intros Hx.
      * destruct (proj1 (Hext x) (or_intror Hx)) as [E | Hin]; [| exact Hin].
        subst x. specialize (Ha _ Hx). lia.
      * destruct (proj2 (Hext x) (or_intror Hx)) as [E | Hin]; [| exact Hin].
        subst x. specialize (Hb _ Hx). lia.
Qed.

Lemma increasing_filter (f : Z -> bool) (l : list Z) :
  increasing l -> increasing (filter f l).
Proof.
  unfold increasing. induction 1 as [| a l Hs IH Ha]; simpl.
  - constructor.
  - destruct (f a); [| exact IH].
    constructor; [exact IH |].
    rewrite Forall_forall in *. intros x Hx.
    apply filter_In in Hx. now apply Ha.
Qed.

Lemma increasing_bounded_length (l : list Z) (lo hi : Z) :
  increasing l -> Forall (fun x => lo <= x <= hi) l ->
  Z.of_nat (List.length l) <= Z.max 0 (hi - lo + 1).
Proof.
  unfold increasing. intros Hs. revert lo.
  induction Hs as [| a l Hs IH Ha]; intros lo Hb; simpl List.length.
  - lia.
  - inversion Hb as [| ? ? Hlo Hrest]; subst.
    assert (Hl : Forall (fun x => a + 1 <= x <= hi) l).
    { rewrite Forall_forall in *. intros x Hx.
      specialize (Ha _ Hx). specialize (Hrest _ Hx). lia. }
    specialize (IH (a + 1) Hl). lia.
Qed.

Lemma group_add_keys (k v : Z) (g : list (Z * (Z * Z))) (x : Z) :
  In x (map fst (pd.group_add k v g)) <-> x = k \/ In x (map fst g).
Proof.
  induction g as [| [k' [s n]] g IH]; simpl.
  - intuition.
  - destruct (k <? k') eqn:Hlt; simpl.
    + intuition.
    + destruct (k =? k') eqn:Heq; simpl.
      * apply Z.eqb_eq in Heq. subst. intuition.
      * rewrite IH. intuition.
Qed.

Lemma group_add_increasing (k v : Z) (g : list (Z * (Z * Z))) :
  increasing (map fst g) -> increasing (map fst (pd.group_add k v g)).
Proof.
  unfold increasing. induction g as [| [k' [s n]] g IH]; simpl; intros Hs.
  - repeat constructor.
  - inversion Hs as [| ? ? Hrest Hall]; subst.
    destruct (k <? k') eqn:Hlt; simpl.
    + apply Z.ltb_lt in Hlt. constructor; [exact Hs |].
      constructor; [exact Hlt |].
      eapply Forall_impl; [| exact Hall]. simpl. intros; lia.
    + apply Z.ltb_ge in Hlt.
      destruct (k =? k') eqn:Heq; simpl.
      * now constructor.
      * apply Z.eqb_neq in Heq. constructor; [now apply IH |].
        rewrite Forall_forall in *. intros x Hx.
        apply group_add_keys in Hx. destruct Hx as [-> | Hx]; [lia | auto].
Qed.

Lemma group_get_absent (k : Z) (g : list (Z * (Z * Z))) :
  ~ In k (map fst g) -> group_get k g = None.
Proof.
  induction g as [| [k' x] g IH]; simpl; intros Hn; [reflexivity |].
  destruct (k =? k') eqn:Heq.
  - apply Z.eqb_eq in Heq. exfalso. apply Hn. left. now symmetry.
  - apply IH. tauto.
Qed.

Lemma group_get_add_other (k k' v : Z) (g : list (Z * (Z * Z))) :
  k <> k' -> group_get k (pd.group_add k' v g) = group_get k g.
Proof.
  intros Hne. induction g as [| [k0 [s n]] g IH]; simpl.
  - apply Z.eqb_neq in Hne. now rewrite Hne.
  - destruct (k' <? k0) eqn:Hlt; simpl.
    + apply Z.eqb_neq in Hne. now rewrite Hne.
    + destruct (k' =? k0) eqn:Heq; simpl.
      * apply Z.eqb_eq in Heq. subst k0.
        apply Z.eqb_neq in Hne. now rewrite Hne.
      * now rewrite IH.
Qed.

Lemma group_get_add_same (k v : Z) (g : list (Z * (Z * Z))) :
  increasing (map fst g) ->
  group_get k (pd.group_add k v g)
  = Some (match group_get k g with
          | Some (s, n) => (s + v, n + 1)
          | None => (v, 1)
          end).
Proof.
  unfold increasing. induction g as [| [k0 [s n]] g IH]; simpl; intros Hs.
  - now rewrite Z.eqb_refl.
  - inversion Hs as [| ? ? Hrest Hall]; subst.
    destruct (k <? k0) eqn:Hlt; simpl.
    + rewrite Z.eqb_refl. apply Z.ltb_lt in Hlt.
      assert (Hk0 : (k =? k0) = false) by (apply Z.eqb_neq; lia).
      rewrite Hk0, group_get_absent; [reflexivity |].
      intros Hin. rewrite Forall_forall in Hall.
      specialize (Hall _ Hin). lia.
    + destruct (k =? k0) eqn:Heq; simpl.
      * rewrite Heq. reflexivity.
      * rewrite Heq. now apply IH.
Qed.

Lemma group_get_In (k : Z) (x : Z * Z) (g : list (Z * (Z * Z))) :
  increasing (map fst g) ->
  (In (k, x) g <-> group_get k g = Some x).
Proof.
  unfold increasing. induction g as [| [k0 x0] g IH]; simpl; intros Hs.
  - split; [contradiction | discriminate].
  - inversion Hs as [| ? ? Hrest Hall]; subst.
    destruct (k =? k0) eqn:Heq.
    + apply Z.eqb_eq in Heq. subst k0. split.
      * intros [E | Hin]; [now inversion E |].
        exfalso. rewrite Forall_forall in Hall.
        assert (Hk : In k (map fst g)) by (apply in_map_iff; now exists (k, x)).
        specialize (Hall _ Hk). lia.
      * intros E. inversion E. now left.
    + apply Z.eqb_neq in Heq. rewrite <- (IH Hrest). split.
      * intros [E | Hin]; [inversion E; congruence | exact Hin].
      * intros Hin. now right.
Qed.

Lemma group_sums_snoc (kvs : list (Z * Z)) (kv : Z * Z) :
  pd.group_sums (kvs ++ [kv])
  = pd.group_add (fst kv) (snd kv) (pd.group_sums kvs).
Proof. unfold pd.group_sums. now rewrite fold_left_app. Qed.

Lemma bucket_snoc (k : Z) (kvs : list (Z * Z)) (kv : Z * Z) :
  bucket k (kvs ++ [kv])
  = (bucket k kvs ++ if fst kv =? k then [snd kv] else [])%list.
Proof.
  unfold bucket. rewrite filter_app, map_app. simpl.
  now destruct (fst kv =? k).
Qed.

Lemma sum_Z_app (l1 l2 : list Z) : sum_Z (l1 ++ l2) = sum_Z l1 + sum_Z l2.
Proof. induction l1 as [| x l1 IH]; simpl; lia. Qed.

Lemma group_sums_increasing (kvs : list (Z * Z)) :
  increasing (map fst (pd.group_sums kvs)).
Proof.
  induction kvs as [| kv kvs IH] using rev_ind.
  - constructor.
  - rewrite group_sums_snoc. now apply group_add_increasing.
Qed.

Lemma group_sums_keys (kvs : list (Z * Z)) (k : Z) :
  In k (map fst (pd.group_sums kvs)) <-> In k (map fst kvs).
Proof.
  induction kvs as [| kv kvs IH] using rev_ind.
  - reflexivity.
  - rewrite group_sums_snoc, group_add_keys, IH, map_app, in_app_iff.
    simpl. intuition.
Qed.

(** The accumulator of a group is the sum and the number of the values of
    its rows. *)
Lemma group_sums_get (kvs : list (Z * Z)) (k : Z) :
  group_get k (pd.group_sums kvs)
  = match bucket k kvs with
    | [] => None
    | _ :: _ => Some (sum_Z (bucket k kvs), Z.of_nat (List.length (bucket k kvs)))
    end.
Proof.
  induction kvs as [| kv kvs IH] using rev_ind.
  - reflexivity.
  - rewrite group_sums_snoc, bucket_snoc.
    destruct (fst kv =? k) eqn:Heq.
    + apply Z.eqb_eq in Heq. subst k.
      rewrite group_get_add_same by apply group_sums_increasing.
      rewrite IH. destruct (bucket (fst kv) kvs) as [| x b] eqn:Hb.
      * simpl. do 2 f_equal. lia.
      * rewrite sum_Z_app, length_app. simpl (_ ++ _)%list. cbv iota.
        change (sum_Z [snd kv]) with (snd kv + 0).
        change (List.length [snd kv]) with 1%nat.
        do 2 f_equal; lia.
    + apply Z.eqb_neq in Heq.
      rewrite group_get_add_other by congruence.
      now rewrite app_nil_r.
Qed.

Lemma groupby_mean_keys (kvs : list (Z * Z)) :
  map fst (pd.groupby_mean kvs) = map fst (pd.group_sums kvs).
Proof. unfold pd.groupby_mean. now rewrite map_map. Qed.

(** A row of the result is a key with at least one row, paired with the
    mean of the values of its rows. *)
Lemma groupby_mean_In (kvs : list (Z * Z)) (k : Z) (m : Q) :
  In (k, m) (pd.groupby_mean kvs)
  <-> bucket k kvs <> [] /\ m = mean (bucket k kvs).
Proof.
  unfold pd.groupby_mean. rewrite in_map_iff. split.
  - intros [[k' [s n]] [E Hin]]. simpl in E. inversion E; subst k' m.
    apply group_get_In in Hin; [| apply group_sums_increasing].
    rewrite group_sums_get in Hin.
    destruct (bucket k kvs) as [| x b]; [discriminate |].
    inversion Hin; subst. split; [discriminate | reflexivity].
  - intros [Hne ->].
    exists (k, (sum_Z (bucket k kvs), Z.of_nat (List.length (bucket k kvs)))).
    split; [reflexivity |].
    apply group_get_In; [apply group_sums_increasing |].
    rewrite group_sums_get. destruct (bucket k kvs); [contradiction | reflexivity].
Qed.







(** ** Hourly Patterns *)

Lemma hours_of_day_increasing : increasing hours_of_day.
Proof.
  unfold increasing, hours_of_day.
  repeat (constructor; [| repeat (constructor; [reflexivity |]); constructor]).
  constructor.
Qed.

Lemma hours_of_day_In (h : Z) : In h hours_of_day <-> 0 <= h < 24.
Proof. unfold hours_of_day. simpl. lia. Qed.

Lemma hour_occurs_true (hourly : list hourly_row) (h : Z) :
  hour_occurs hourly h = true <-> exists r, In r hourly /\ Hour r = h.
Proof.
  unfold hour_occurs. rewrite existsb_exists.
  split; intros [r [Hin Hr]]; exists r; split; auto; now apply Z.eqb_eq.
Qed.

Lemma hour_steps_keys (hourly : list hourly_row) (h : Z) :
  In h (map fst (hour_steps hourly)) <-> exists r, In r hourly /\ Hour r = h.
Proof.
  unfold hour_steps. rewrite map_map. simpl. rewrite in_map_iff.
  split; intros [r [H1 H2]]; exists r; tauto.
Qed.


Lemma filter_all (f : Z -> bool) (l : list Z) :
  (forall x, In x l -> f x = true) -> filter f l = l.
Proof.
  induction l as [| a l IH]; simpl; intros H; [reflexivity |].
  rewrite (H a (or_introl eq_refl)). f_equal. apply IH. auto.
Qed.

Lemma avg_steps_hours (hourly : list hourly_row) :
  map fst (avg_steps hourly) = filter (hour_occurs hourly) hours_of_day.
Proof.
  unfold avg_steps. rewrite groupby_mean_keys.
  apply increasing_ext.
  - apply group_sums_increasing.
  - apply increasing_filter, hours_of_day_increasing.
  - intros h. rewrite group_sums_keys, hour_steps_keys, filter_In,
      hours_of_day_In, hour_occurs_true.
    split; [| tauto].
    intros [r [Hin Hr]]. split; [| now exists r].
    subst h. apply dt_hour_range.
Qed.

Example avg_steps_two_days :
  avg_steps Examples.hourly_two_days
  = [ (8, (inject_Z 1351 / inject_Z 2)%Q); (9, (inject_Z 300 / inject_Z 2)%Q) ].
Proof. reflexivity. Qed.

(** C7, as stated, fails: a table with a single reading yields one bucket,
    not the twenty-four of hours 0 to 23. *)
Lemma avg_steps_not_always_24_buckets :
  ~ (forall hourly : list hourly_row,
       List.length (avg_steps hourly) = 24%nat
       /\ map fst (avg_steps hourly) = hours_of_day
       /\ forall h m, In (h, m) (avg_steps hourly) -> m = mean (hour_bucket h hourly)).
Proof.
  intros H. destruct (H Examples.hourly_one_row) as [Hlen _].
  vm_compute in Hlen. discriminate.
Qed.

(** C7, amended: the rows are grouped by Hour into one bucket for each hour
    from 0 to 23 that occurs in the table, so at most 24 buckets, and all 24
    when every hour occurs; each bucket carries the arithmetic mean of the
    StepTotal of its rows; the buckets come in increasing hour order. *)
Theorem avg_steps_buckets (hourly : list hourly_row) :
  map fst (avg_steps hourly) = filter (hour_occurs hourly) hours_of_day
  /\ StronglySorted Z.lt (map fst (avg_steps hourly))
  /\ Forall (fun h => 0 <= h <= 23) (map fst (avg_steps hourly))
  /\ (List.length (avg_steps hourly) <= 24)%nat
  /\ (forall h m, In (h, m) (avg_steps hourly)
        <-> hour_bucket h hourly <> [] /\ m = mean (hour_bucket h hourly))
  /\ ((forall h, 0 <= h <= 23 -> exists r, In r hourly /\ Hour r = h) ->
      map fst (avg_steps hourly) = hours_of_day).
Proof.
  pose proof (avg_steps_hours hourly) as Hkeys.
  split; [exact Hkeys |]. split; [| split; [| split; [| split]]].
  - rewrite Hkeys. apply increasing_filter, hours_of_day_increasing.
  - rewrite Hkeys. apply Forall_forall. intros h Hh.
    apply filter_In in Hh. destruct Hh as [Hh _].
    apply hours_of_day_In in Hh. lia.
  - rewrite <- (length_map fst), Hkeys.
    apply (filter_length_le (hour_occurs hourly) hours_of_day).
  - intros h m. apply groupby_mean_In.
  - intros Hall. rewrite Hkeys. apply filter_all.
    intros h Hh. apply hours_of_day_In in Hh.
    apply hour_occurs_true. apply Hall. lia.
Qed.

Lemma avg_steps_buckets_witness :
  (List.length (avg_steps Examples.hourly_two_days) <= 24)%nat
  /\ In (8, mean [100; 1251]) (avg_steps Examples.hourly_two_days).
Proof.
  destruct (avg_steps_buckets Examples.hourly_two_days)
    as (_ & _ & _ & Hlen & Hmean & _).
  split; [exact Hlen |].
  apply Hmean. split; [discriminate | reflexivity].
Defined.



(** ** The correlation table *)











Lemma corr_matrix_entries (act : list activity_row) :
  corr_matrix act
  = map (fun mx => map (fun my => corr_entry act mx my) corr_metrics) corr_metrics.
Proof. reflexivity. Qed.


Lemma corr_matrix_7x7 (act : list activity_row) :
  List.length (corr_matrix act) = 7%nat
  /\ Forall (fun row => List.length row = 7%nat) (corr_matrix act).
Proof.
  rewrite corr_matrix_entries. split; [reflexivity |].
  repeat constructor.
Qed.




(** ** Unused tables *)

(** C10: two passes with the same widget choices, over tables that agree on
    Daily Activity, Sleep Day, Heart Rate, Hourly Steps and Weight Log, issue
    the same calls, whatever Daily Calories, Daily Intensities and Daily
    Steps hold. *)
Theorem unused_tables_do_not_show (ui : widgets) (t1 t2 : tables) :
  daily_activity t1 = daily_activity t2 ->
  sleep_day t1 = sleep_day t2 ->
  heartrate t1 = heartrate t2 ->
  hourly_steps t1 = hourly_steps t2 ->
  weight t1 = weight t2 ->
  script ui t1 = script ui t2.
Proof.
  intros Ha Hs Hh Hhs Hw. unfold script, render_view.
  rewrite Ha, Hs, Hh, Hhs, Hw. reflexivity.
Qed.

Lemma unused_tables_do_not_show_witness :
  script (mkWidgets Sleep_Analysis 0)
    (mkTables Examples.activity_one_user
       [ mkCalories (midnight 2016 4 12) 1985 ] [] []
       Examples.sleep_one_user [] Examples.hourly_two_days Examples.weight_two_days)
  = script (mkWidgets Sleep_Analysis 0)
      (mkTables Examples.activity_one_user
         [] [ mkIntensities (midnight 2016 4 12) 728 328 13 25 ]
         [ mkSteps (midnight 2016 4 12) 13162 ]
         Examples.sleep_one_user [] Examples.hourly_two_days Examples.weight_two_days).
Proof.
  apply unused_tables_do_not_show; reflexivity.
Defined.

(** ** The loader *)

Section LoaderFacts.

Import Loader.
Variable to_datetime : string -> option timestamp.

Lemma bind_inr {A B : Type} (m : M A) (k : A -> M B) (w w2 : world) (b : B) :
  bind m k w = (w2, inr b) ->
  exists w1 a, m w = (w1, inr a) /\ k a w1 = (w2, inr b).
Proof.
  unfold bind. destruct (m w) as [w1 [e | a]]; intros H.
  - discriminate.
  - now exists w1, a.
Qed.

Lemma read_csv_inr {A : Type} (name : string) (file : filesystem -> option A)
    (w w' : world) (r : nat * A) :
  read_csv name file w = (w', inr r) ->
  fst r = next_id w
  /\ file (fs w) = Some (snd r)
  /\ w' = mkWorld (fs w) (name :: reads w) (cache w) (S (next_id w)).
Proof.
  unfold read_csv, bind, log_read, alloc, ret, raise. simpl.
  destruct (file (fs w)) as [rows |]; intros H; inversion H; subst.
  auto.
Qed.

(** Converting a column touches neither files, log, cache nor allocator. *)
Lemma convert_world {A B : Type} (get : A -> string) (set : A -> timestamp -> B)
    (rows : list A) (w : world) :
  fst (convert to_datetime get set rows w) = w.
Proof.
  induction rows as [| r rows IH]; simpl; [reflexivity |].
  destruct (to_datetime (get r)); [| reflexivity].
  unfold bind. destruct (convert to_datetime get set rows w) as [w' [e | x]];
    simpl in *; congruence.
Qed.

Lemma convert_inr {A B : Type} (get : A -> string) (set : A -> timestamp -> B)
    (rows : list A) (w w' : world) (out : list B) :
  convert to_datetime get set rows w = (w', inr out) -> w' = w.
Proof.
  intros H. pose proof (convert_world get set rows w) as E.
  now rewrite H in E.
Qed.

Ltac step_bind H :=
  let w1 := fresh "w" in
  let a := fresh "a" in
  let Hm := fresh "Hm" in
  apply bind_inr in H; destruct H as (w1 & a & Hm & H);
  first [ apply read_csv_inr in Hm; destruct Hm as (? & ? & ->)
        | apply convert_inr in Hm; subst w1
        | unfold alloc in Hm; inversion Hm; subst; clear Hm ];
  cbn [fs reads cache next_id] in *.

(** A successful run of the function body opens the eight files once each,
    in order, and builds eight frames and the tuple as new objects. *)
Lemma load_data_inr (w w' : world) (l : loaded) :
  load_data to_datetime w = (w', inr l) ->
  w' = mkWorld (fs w) (rev file_names ++ reads w) (cache w) (9 + next_id w)
  /\ frame_refs l = seq (next_id w) 8
  /\ tuple_ref l = (8 + next_id w)%nat.
Proof.
  unfold load_data. intros H.
  do 17 step_bind H.
  unfold ret in H. inversion H; subst; clear H. simpl.
  repeat match goal with E : fst _ = _ |- _ => rewrite E; clear E end.
  repeat split; reflexivity.
Qed.

Lemma unpickle_eq (t : tables) (w : world) :
  unpickle t w
  = (mkWorld (fs w) (reads w) (cache w) (9 + next_id w),
     inr (mkLoaded (8 + next_id w) (seq (next_id w) 8) t)).
Proof. reflexivity. Qed.

(** Whatever a successful call returns, it leaves its contents in the cache
    and its objects are older than the allocator's next identity. *)
Lemma load_data_cached_inr (w w1 : world) (l1 : loaded) :
  load_data_cached to_datetime w = (w1, inr l1) ->
  cache w1 = Some (frames l1)
  /\ next_id w1 = (9 + next_id w)%nat
  /\ frame_refs l1 = seq (next_id w) 8
  /\ tuple_ref l1 = (8 + next_id w)%nat
  /\ fs w1 = fs w.
Proof.
  unfold load_data_cached. destruct (cache w) as [t |] eqn:Hc.
  - rewrite unpickle_eq. intros H. inversion H; subst; clear H. simpl. auto.
  - intros H. apply bind_inr in H. destruct H as (w' & l & Hload & H).
    apply load_data_inr in Hload. destruct Hload as (-> & Hrefs & Htup).
    unfold bind, store, ret in H. simpl in H. inversion H; subst; clear H.
    simpl. auto.
Qed.

(** A call that finds the cache filled opens no file, whatever the files
    have become. *)
Lemma load_data_cached_hit (w : world) (t : tables) :
  cache w = Some t ->
  exists w' l, load_data_cached to_datetime w = (w', inr l)
               /\ frames l = t /\ reads w' = reads w.
Proof.
  intros Hc. unfold load_data_cached. rewrite Hc, unpickle_eq.
  eexists. eexists. split; [reflexivity |]. split; reflexivity.
Qed.

(** A first call in a new process opens each of the eight files once. *)
Lemma load_data_cached_miss_reads (w w1 : world) (l1 : loaded) :
  cache w = None ->
  load_data_cached to_datetime w = (w1, inr l1) ->
  reads w1 = (rev file_names ++ reads w)%list.
Proof.
  unfold load_data_cached. intros ->. intros H.
  apply bind_inr in H. destruct H as (w' & l & Hload & H).
  apply load_data_inr in Hload. destruct Hload as (-> & _ & _).
  unfold bind, store, ret in H. simpl in H. inversion H; subst. reflexivity.
Qed.

End LoaderFacts.

Example first_load_reads_eight_files :
  Loader.reads (fst (Loader.load_data_cached Loader.to_datetime_iso
                       Examples.fresh_process))
  = rev Loader.file_names.
Proof. reflexivity. Qed.

(** A date that cannot be read stops the load, also in a file no view
    uses: nothing is rendered and nothing is cached. *)
Example unreadable_date_stops_the_run :
  Loader.run_script Loader.to_datetime_iso (mkWidgets Weight_Log 0)
    (Loader.mkWorld Examples.files_bad_calories [] None 0)
  = (Loader.mkWorld Examples.files_bad_calories (rev Loader.file_names) None 8,
     inl (Loader.ParseError "yesterday")).
Proof. reflexivity. Qed.

(** C2, as stated, fails: the second call returns a tuple and frames that
    are other objects than those of the first call. *)
Lemma second_load_not_same_objects :
  ~ (forall (to_datetime : string -> option timestamp)
            (w w1 w2 : Loader.world) (l1 l2 : Loader.loaded),
       Loader.load_data_cached to_datetime w = (w1, inr l1) ->
       Loader.load_data_cached to_datetime w1 = (w2, inr l2) ->
       Loader.tuple_ref l2 = Loader.tuple_ref l1
       /\ Loader.frame_refs l2 = Loader.frame_refs l1
       /\ Loader.frames l2 = Loader.frames l1
       /\ Loader.reads w2 = Loader.reads w1).
Proof.
  intros H.
  destruct (Loader.load_data_cached Loader.to_datetime_iso Examples.fresh_process)
    as [w1 [e | l1]] eqn:E1; [vm_compute in E1; discriminate |].
  destruct (Loader.load_data_cached Loader.to_datetime_iso w1)
    as [w2 [e | l2]] eqn:E2.
  - vm_compute in E1. injection E1 as <- <-. vm_compute in E2. discriminate.
  - destruct (H _ _ _ _ _ _ E1 E2) as [Htup _].
    vm_compute in E1. injection E1 as <- <-.
    vm_compute in E2. injection E2 as <- <-.
    vm_compute in Htup. discriminate.
Qed.

(** C2, amended: after a call of the loader that returned, the next call
    returns too, with eight tables equal in content to those of the earlier
    call, without opening any file; the cache still holds these contents.
    The tuple and the frames it returns are new objects, equal copies and
    not the objects of the earlier call. *)
Theorem second_load_is_equal_copy (to_datetime : string -> option timestamp)
    (w w1 : Loader.world) (l1 : Loader.loaded) :
  Loader.load_data_cached to_datetime w = (w1, inr l1) ->
  exists w2 l2,
    Loader.load_data_cached to_datetime w1 = (w2, inr l2)
    /\ Loader.frames l2 = Loader.frames l1
    /\ Loader.reads w2 = Loader.reads w1
    /\ Loader.cache w2 = Some (Loader.frames l1)
    /\ Loader.tuple_ref l2 <> Loader.tuple_ref l1
    /\ ~ In (Loader.tuple_ref l2) (Loader.frame_refs l1)
    /\ forall i, In i (Loader.frame_refs l2) ->
         i <> Loader.tuple_ref l1 /\ ~ In i (Loader.frame_refs l1).
Proof.
  intros H1.
  destruct (load_data_cached_inr to_datetime w w1 l1 H1)
    as (Hc & Hn & Hrefs & Htup & _).
  unfold Loader.load_data_cached at 1. rewrite Hc, unpickle_eq.
  eexists. eexists. split; [reflexivity |]. simpl.
  rewrite Hrefs, Htup, Hn.
  split; [reflexivity |]. split; [reflexivity |]. split; [exact Hc |].
  split; [lia |]. split.
  - rewrite in_seq. lia.
  - intros i Hi.
    assert (Hi' : In i (seq (9 + Loader.next_id w) 8)) by exact Hi.
    rewrite in_seq in Hi'. rewrite in_seq. lia.
Qed.

Lemma second_load_is_equal_copy_witness :
  exists w1 l1 w2 l2,
    Loader.load_data_cached Loader.to_datetime_iso Examples.fresh_process
    = (w1, inr l1)
    /\ Loader.load_data_cached Loader.to_datetime_iso w1 = (w2, inr l2)
    /\ Loader.frames l2 = Loader.frames l1
    /\ Loader.reads w2 = Loader.reads w1
    /\ Loader.tuple_ref l2 <> Loader.tuple_ref l1.
Proof.
  destruct (Loader.load_data_cached Loader.to_datetime_iso Examples.fresh_process)
    as [w1 [e | l1]] eqn:E1; [vm_compute in E1; discriminate |].
  destruct (second_load_is_equal_copy _ _ _ _ E1)
    as (w2 & l2 & E2 & Hf & Hr & _ & Ht & _).
  exists w1, l1, w2, l2. repeat split; assumption.
Defined.

(* ================================================================== *)
(** * Further properties *)

(** ** The dispatch on the menu *)

(** X1: every pass issues exactly one header, the one of the selected view,
    right after the four page-level calls; the number of charts is fixed by
    the view (two, two, one, one, and for the Weight Log none or two); the
    correlation table appears only in Daily Activity and the date selector
    only in Heart Rate. *)
Theorem one_view_per_pass (ui : widgets) (t : tables) :
  count_cmd is_header (script ui t) = 1%nat
  /\ nth_error (script ui t) 4 = Some (st_header (header_of (menu ui)))
  /\ count_cmd is_chart (script ui t) = charts_of (menu ui) t
  /\ count_cmd is_dataframe (script ui t)
     = (match menu ui with Daily_Activity => 1 | _ => 0 end)%nat
  /\ count_cmd is_selectbox (script ui t)
     = (match menu ui with Heart_Rate => 1 | _ => 0 end)%nat.
Proof.
  unfold script, render_view, charts_of.
  destruct (menu ui); try (repeat split; reflexivity).
  unfold render_weight.
  destruct (weight t) as [| r w] eqn:Hw; [repeat split; reflexivity |].
  destruct (latest_weight_spec (r :: w)) as (r0 & Hr0 & _); [discriminate |].
  rewrite Hr0. repeat split; reflexivity.
Qed.

(** X2: a pass shows the warning exactly when the menu is on Weight Log and
    the Weight Log is empty, and shows the two metrics exactly when the menu
    is on Weight Log and the Weight Log is not empty; no other view ever
    issues a warning or a metric. *)
Theorem warning_and_metrics (ui : widgets) (t : tables) :
  (count_cmd is_warning (script ui t) = 1%nat
   <-> menu ui = Weight_Log /\ weight t = [])
  /\ (count_cmd is_warning (script ui t) = 0%nat
      <-> ~ (menu ui = Weight_Log /\ weight t = []))
  /\ (count_cmd is_metric (script ui t) = 2%nat
      <-> menu ui = Weight_Log /\ weight t <> [])
  /\ (count_cmd is_metric (script ui t) = 0%nat
      <-> ~ (menu ui = Weight_Log /\ weight t <> [])).
Proof.
  unfold script, render_view.
  destruct (menu ui) eqn:Hm;
    try (repeat split; simpl; intros; try discriminate; try tauto;
         intuition discriminate).
  unfold render_weight.
  destruct (weight t) as [| r w] eqn:Hw.
  - repeat split; simpl; intros; try discriminate; try tauto;
      intuition congruence.
  - destruct (latest_weight_spec (r :: w)) as (r0 & Hr0 & _); [discriminate |].
    rewrite Hr0.
    repeat split; simpl; intros; try discriminate; try tauto;
      intuition congruence.
Qed.

Lemma warning_and_metrics_witness :
  count_cmd is_metric (script (mkWidgets Weight_Log 0) MoreExamples.loaded_tables)
  = 2%nat
  /\ count_cmd is_warning
       (script (mkWidgets Heart_Rate 0) MoreExamples.loaded_tables) = 0%nat.
Proof.
  split.
  - apply (warning_and_metrics (mkWidgets Weight_Log 0) MoreExamples.loaded_tables).
    split; [reflexivity | discriminate].
  - apply (warning_and_metrics (mkWidgets Heart_Rate 0) MoreExamples.loaded_tables).
    intros [H _]. discriminate.
Defined.

(** ** Timestamps *)

(** X3: a timestamp splits into its date, its hour and a rest of less than
    an hour, and the date and the hour are the only values that split it so:
    [.dt.date] and [.dt.hour] are the calendar day and the hour of day also
    before the epoch. *)
Theorem date_and_hour_of_timestamp (t : timestamp) :
  (exists rest, 0 <= rest < ns_per_hour
                /\ t = dt_date t * ns_per_day + dt_hour t * ns_per_hour + rest)
  /\ forall d h rest,
       0 <= h < 24 -> 0 <= rest < ns_per_hour ->
       t = d * ns_per_day + h * ns_per_hour + rest ->
       d = dt_date t /\ h = dt_hour t.
Proof.
  unfold dt_date, dt_hour, ns_per_day, ns_per_hour, ns_per_second.
  split.
  - exists ((t mod (24 * (3600 * 1000000000))) mod (3600 * 1000000000)).
    split; [apply Z.mod_pos_bound; lia |].
    pose proof (Z.div_mod t (24 * (3600 * 1000000000)) ltac:(lia)).
    pose proof (Z.div_mod (t mod (24 * (3600 * 1000000000)))
                  (3600 * 1000000000) ltac:(lia)).
    lia.
  - intros d h rest Hh Hr Ht.
    assert (Hd : t / (24 * (3600 * 1000000000)) = d).
    { symmetry. apply (Z.div_unique t _ d (h * (3600 * 1000000000) + rest)); lia. }
    split; [now symmetry |].
    assert (Hm : t mod (24 * (3600 * 1000000000)) = h * (3600 * 1000000000) + rest).
    { symmetry. apply (Z.mod_unique t _ d); lia. }
    rewrite Hm. apply (Z.div_unique _ _ h rest); lia.
Qed.

Lemma date_and_hour_of_timestamp_witness :
  days_from_civil 2016 4 12 = dt_date (mk_timestamp 2016 4 12 23 59 59)
  /\ 23 = dt_hour (mk_timestamp 2016 4 12 23 59 59).
Proof.
  apply (proj2 (date_and_hour_of_timestamp (mk_timestamp 2016 4 12 23 59 59))
           (days_from_civil 2016 4 12) 23
           (59 * 60 * ns_per_second + 59 * ns_per_second)).
  - lia.
  - vm_compute. split; [discriminate | reflexivity].
  - reflexivity.
Defined.

(** ** Heart Rate, further *)

Lemma unique_hd (l : list Z) : hd_error (pd.unique l) = hd_error l.
Proof. destruct l; reflexivity. Qed.

(** X4: the date selector offers each date of the Time column once, and
    only those, the date of the first row first (the default choice); for an
    empty table it offers nothing. *)
Theorem available_dates_are_row_dates (hr : list heartrate_row) :
  NoDup (available_dates hr)
  /\ (forall d, In d (available_dates hr)
                <-> exists r, In r hr /\ dt_date (Time r) = d)
  /\ selectbox (available_dates hr) 0
     = option_map (fun r => dt_date (Time r)) (hd_error hr)
  /\ (hr = [] -> available_dates hr = []).
Proof.
  unfold available_dates, selectbox. split; [apply unique_NoDup |].
  split; [| split].
  - intros d. rewrite unique_In, in_map_iff.
    split; intros [r [H1 H2]]; exists r; tauto.
  - rewrite nth_error_0, unique_hd. now destruct hr.
  - intros ->. reflexivity.
Qed.

Lemma available_dates_are_row_dates_witness :
  In (days_from_civil 2016 4 13) (available_dates MoreExamples.heartrate_two_days)
  /\ available_dates [] = [].
Proof.
  split.
  - apply available_dates_are_row_dates.
    exists (mkHeartrate (mk_timestamp 2016 4 13 0 0 5) 61).
    split; [simpl; tauto | reflexivity].
  - now apply available_dates_are_row_dates.
Defined.

Lemma indicator_sum_one (x : Z) (U : list Z) :
  NoDup U -> In x U ->
  list_sum (map (fun d => if d =? x then 1%nat else 0%nat) U) = 1%nat.
Proof.
  induction U as [| u U IH]; intros Hnd Hin; [contradiction |].
  inversion Hnd as [| ? ? Hnotin Hnd']; subst. simpl.
  destruct (u =? x) eqn:Heq.
  - apply Z.eqb_eq in Heq. subst u.
    assert (Hz : list_sum (map (fun d => if d =? x then 1%nat else 0%nat) U) = 0%nat).
    { clear IH Hnd Hnd' Hin. induction U as [| v U IHU]; [reflexivity |].
      simpl. destruct (v =? x) eqn:Hv.
      - apply Z.eqb_eq in Hv. subst. exfalso. apply Hnotin. now left.
      - apply IHU. intros H. apply Hnotin. now right. }
    rewrite Hz. reflexivity.
  - apply Z.eqb_neq in Heq. destruct Hin as [-> | Hin]; [contradiction |].
    now rewrite IH.
Qed.

Lemma list_sum_map_add {A : Type} (f g : A -> nat) (l : list A) :
  list_sum (map (fun a => (f a + g a)%nat) l)
  = (list_sum (map f l) + list_sum (map g l))%nat.
Proof. induction l as [| a l IH]; simpl; [reflexivity | rewrite IH; lia]. Qed.

(** X5: the days of the selector split the table: the numbers of rows the
    filter keeps for the offered dates add up to the number of rows of the
    table, so every reading is charted under exactly one date. *)
Theorem hr_days_partition_rows (hr : list heartrate_row) :
  list_sum (map (fun d => List.length (hr_day hr (Some d))) (available_dates hr))
  = List.length hr.
Proof.
  assert (Hgen : forall (l : list heartrate_row) (U : list date),
             NoDup U ->
             (forall r, In r l -> In (dt_date (Time r)) U) ->
             list_sum (map (fun d => List.length (hr_day l (Some d))) U)
             = List.length l).
  { intros l U Hnd. induction l as [| r l IH]; intros Hall.
    - clear Hnd Hall. induction U as [| u U IHU]; [reflexivity | exact IHU].
    - transitivity
        (list_sum (map (fun d : date =>
                          ((if (d =? dt_date (Time r))%Z then 1 else 0)
                           + List.length (hr_day l (Some d)))%nat) U)).
      + f_equal. apply map_ext. intros d. unfold hr_day. simpl.
        rewrite (Z.eqb_sym (dt_date (Time r)) d).
        now destruct (d =? dt_date (Time r)).
      + rewrite list_sum_map_add, indicator_sum_one, IH.
        * reflexivity.
        * intros r' Hr'. apply Hall. now right.
        * exact Hnd.
        * apply Hall. now left. }
  apply Hgen; [apply unique_NoDup |].
  intros r Hr. unfold available_dates. apply unique_In.
  now apply (in_map (fun r => dt_date (Time r))).
Qed.



(** ** Weight Log, further *)

Lemma NoDup_map_inj {A : Type} (f : A -> Z) (l : list A) (a b : A) :
  NoDup (map f l) -> In a l -> In b l -> f a = f b -> a = b.
Proof.
  induction l as [| x l IH]; simpl; intros Hnd Ha Hb Hf; [contradiction |].
  inversion Hnd as [| ? ? Hnotin Hnd']; subst.
  destruct Ha as [-> | Ha]; destruct Hb as [-> | Hb].
  - reflexivity.
  - exfalso. apply Hnotin. rewrite Hf. now apply in_map.
  - exfalso. apply Hnotin. rewrite <- Hf. now apply in_map.
  - now apply IH.
Qed.

(** X7: when no two rows of the Weight Log carry the same Date, the latest
    row, and with it the two metrics, do not depend on the order of the rows
    in the file. *)
Theorem latest_weight_any_row_order (w w' : list weight_row) :
  Permutation w w' ->
  NoDup (map (fun r => Date r) w) ->
  latest_weight w = latest_weight w'
  /\ filter is_metric (render_weight w) = filter is_metric (render_weight w').
Proof.
  intros Hperm Hnd.
  assert (Hlatest : latest_weight w = latest_weight w').
  { destruct w as [| r0 w0].
    - apply Permutation_nil in Hperm. now subst.
    - assert (Hne' : w' <> []).
      { intros ->. apply Permutation_sym, Permutation_nil in Hperm. discriminate. }
      destruct (latest_weight_spec (r0 :: w0)) as (r & Hr & Hin & Hmax);
        [discriminate |].
      destruct (latest_weight_spec w' Hne') as (r' & Hr' & Hin' & Hmax').
      rewrite Hr, Hr'. f_equal.
      pose proof (Permutation_in _ (Permutation_sym Hperm) Hin') as Hin''.
      pose proof (Permutation_in _ Hperm Hin) as Hinw'.
      specialize (Hmax _ Hin''). specialize (Hmax' _ Hinw').
      apply (NoDup_map_inj (fun r => Date r) (r0 :: w0) r r' Hnd Hin Hin'').
      simpl. apply Z.le_antisymm; assumption. }
  split; [exact Hlatest |].
  unfold render_weight. rewrite <- Hlatest.
  destruct w as [| r0 w0].
  - apply Permutation_nil in Hperm. now subst.
  - destruct w' as [| r1 w1].
    + apply Permutation_sym, Permutation_nil in Hperm. discriminate.
    + reflexivity.
Qed.

Lemma latest_weight_any_row_order_witness :
  latest_weight Examples.weight_two_days
  = latest_weight (rev Examples.weight_two_days).
Proof.
  apply latest_weight_any_row_order.
  - apply Permutation_rev.
  - vm_compute. repeat (constructor; [simpl; intuition discriminate |]).
    constructor.
Defined.

Lemma round_half_even_inject_Z (z : Z) : round_half_even (inject_Z z) = z.
Proof.
  unfold round_half_even. rewrite Qfloor_Z.
  assert (H : (inject_Z z - inject_Z z ?= 1 # 2)%Q = Lt).
  { apply (proj1 (Qlt_alt _ _)). generalize (inject_Z z). intros q. lra. }
  now rewrite H.
Qed.

Lemma round_half_even_comp (q q' : Q) :
  (q == q')%Q -> round_half_even q = round_half_even q'.
Proof.
  intros H. unfold round_half_even.
  rewrite (Qfloor_comp _ _ H).
  assert (Hc : ((q - inject_Z (Qfloor q') ?= 1 # 2)
                = (q' - inject_Z (Qfloor q') ?= 1 # 2))%Q)
    by (apply Qcompare_comp; [rewrite H; reflexivity | reflexivity]).
  now rewrite Hc.
Qed.

(** X8: a value that has one decimal is printed as it is: the metric of
    t tenths shows the digits of |t| / 10, a point and the digit |t| mod 10,
    with a minus sign exactly when t is negative. *)
Theorem format_1f_of_tenths (t : Z) :
  tenths (inject_Z t / 10) = Z.abs t
  /\ format_1f (inject_Z t / 10)
     = (if t <? 0 then "-" else "")
       ++ string_of_Z (Z.abs t / 10) ++ "." ++ string_of_Z (Z.abs t mod 10).
Proof.
  assert (Ht : tenths (inject_Z t / 10) = Z.abs t).
  { unfold tenths. rewrite <- (round_half_even_inject_Z (Z.abs t)).
    apply round_half_even_comp.
    change (inject_Z (Z.abs t)) with (Qabs (inject_Z t)).
    assert (E : (inject_Z t / 10 == inject_Z t * (1 # 10))%Q) by field.
    rewrite E, Qabs_Qmult. change (Qabs (1 # 10)) with (1 # 10)%Q. field. }
  split; [exact Ht |].
  unfold format_1f. rewrite Ht.
  assert (Hs : Qle_bool 0 (inject_Z t / 10) = negb (t <? 0)).
  { destruct (t <? 0) eqn:Hlt; simpl.
    - apply Z.ltb_lt in Hlt.
      destruct (Qle_bool 0 (inject_Z t / 10)) eqn:Hq; [| reflexivity].
      apply Qle_bool_iff in Hq. exfalso.
      assert (Hq' : (0 <= inject_Z t)%Q).
      { assert (E : (inject_Z t == inject_Z t / 10 * 10)%Q) by field.
        rewrite E. lra. }
      rewrite <- (Zle_Qle 0) in Hq'. lia.
    - apply Z.ltb_ge in Hlt. apply Qle_bool_iff.
      assert (E : (inject_Z t / 10 == inject_Z t * (1 # 10))%Q) by field.
      rewrite E. rewrite (Zle_Qle 0) in Hlt.
      change (inject_Z 0) with 0%Q in Hlt. lra. }
  rewrite Hs. now destruct (t <? 0).
Qed.

Example format_1f_of_tenths_695 : format_1f (inject_Z 695 / 10) = "69.5".
Proof. reflexivity. Qed.

(** ** Sleep Analysis, further *)

Lemma filter_nil_existsb {B : Type} (f : B -> bool) (l : list B) :
  filter f l = [] -> existsb f l = false.
Proof.
  induction l as [| b l IH]; simpl; [reflexivity |].
  destruct (f b); [discriminate | exact IH].
Qed.

Lemma at_most_one_match {A B : Type} (a : A) (f : B -> bool) (l : list B) :
  (List.length (filter f l) <= 1)%nat ->
  map fst (map (pair a) (filter f l)) = if existsb f l then [a] else [].
Proof.
  induction l as [| b l IH]; simpl; [reflexivity |].
  destruct (f b) eqn:Hf; simpl; intros Hlen.
  - destruct (filter f l) eqn:Hfl; [reflexivity | simpl in Hlen; lia].
  - now apply IH.
Qed.

Lemma merge_inner_left_rows {A B : Type} (ka : A -> Z) (kb : B -> Z)
    (left : list A) (right : list B) :
  NoDup (map kb right) ->
  map fst (pd.merge_inner ka kb left right)
  = filter (fun a => existsb (fun b => ka a =? kb b) right) left.
Proof.
  intros Hnd. unfold pd.merge_inner.
  induction left as [| a left IH]; [reflexivity |].
  simpl flat_map. rewrite map_app, IH.
  rewrite at_most_one_match by (now apply unique_key_matches_once).
  simpl filter. now destruct (existsb _ right).
Qed.

(** X9: when no ActivityDate occurs twice in Daily Activity, the joined
    table holds each night that has an activity row of its date exactly once,
    in the order of the Sleep Day table, and no other night. *)
Theorem merged_keeps_matched_nights (sleep : list sleep_row) (act : list activity_row) :
  NoDup (map (fun a => ActivityDate a) act) ->
  map fst (merged (assign_SleepHours sleep) act)
  = filter (has_activity act) (assign_SleepHours sleep).
Proof.
  intros Hnd. unfold merged, has_activity.
  now apply (merge_inner_left_rows (fun s => SleepDay (sh_row s))
               (fun a => ActivityDate a)).
Qed.

Lemma merged_keeps_matched_nights_witness :
  map (fun p => TotalMinutesAsleep (sh_row (fst p)))
      (merged (assign_SleepHours Examples.sleep_one_user) Examples.activity_one_user)
  = [327; 384].
Proof.
  rewrite <- (map_map fst (fun s => TotalMinutesAsleep (sh_row s))).
  rewrite merged_keeps_matched_nights.
  - reflexivity.
  - vm_compute. repeat (constructor; [simpl; intuition discriminate |]).
    constructor.
Defined.

(** ** Hourly Patterns, further *)






Lemma sum_Z_perm (l l' : list Z) : Permutation l l' -> sum_Z l = sum_Z l'.
Proof. induction 1; simpl; lia. Qed.

Lemma bucket_perm (k : Z) (kvs kvs' : list (Z * Z)) :
  Permutation kvs kvs' -> Permutation (bucket k kvs) (bucket k kvs').
Proof.
  unfold bucket. induction 1 as [| x l l' _ IH | x y l | l l' l'' _ IH1 _ IH2];
    simpl.
  - constructor.
  - destruct (fst x =? k); simpl; [now constructor | exact IH].
  - destruct (fst x =? k), (fst y =? k); simpl;
      try apply perm_swap; apply Permutation_refl.
  - eapply perm_trans; eassumption.
Qed.

Lemma group_get_present (k : Z) (g : list (Z * (Z * Z))) :
  In k (map fst g) <-> group_get k g <> None.
Proof.
  induction g as [| [k' x] g IH]; simpl.
  - tauto.
  - destruct (k =? k') eqn:Heq.
    + apply Z.eqb_eq in Heq. subst. split; [discriminate | auto].
    + apply Z.eqb_neq in Heq. rewrite <- IH. intuition congruence.
Qed.

Lemma group_get_ext (g1 g2 : list (Z * (Z * Z))) :
  increasing (map fst g1) -> increasing (map fst g2) ->
  (forall k, group_get k g1 = group_get k g2) -> g1 = g2.
Proof.
  intros H1 H2 Hget.
  assert (Hkeys : map fst g1 = map fst g2).
  { apply increasing_ext; auto.
    intros k. rewrite !group_get_present, Hget. reflexivity. }
  revert g2 H2 Hget Hkeys.
  induction g1 as [| [k1 x1] g1 IH]; intros [| [k2 x2] g2] H2 Hget Hkeys;
    try discriminate; [reflexivity |].
  simpl in Hkeys. injection Hkeys as <- Hkeys.
  pose proof (Hget k1) as Hk. simpl in Hk. rewrite Z.eqb_refl in Hk.
  injection Hk as <-. f_equal.
  unfold increasing in *. simpl in H1, H2.
  inversion H1 as [| ? ? Hs1 Hall1]; subst.
  inversion H2 as [| ? ? Hs2 Hall2]; subst.
  apply IH; auto.
  intros k. destruct (Z.eq_dec k k1) as [-> | Hne].
  - rewrite !group_get_absent; [reflexivity | |];
      intros Hin; rewrite Forall_forall in Hall1, Hall2;
      [specialize (Hall2 _ Hin) | specialize (Hall1 _ Hin)]; lia.
  - specialize (Hget k). simpl in Hget.
    apply Z.eqb_neq in Hne. now rewrite Hne in Hget.
Qed.

(** X11: the hourly means do not depend on the order of the rows of the
    table: any reordering of the hourly-steps rows gives the same buckets
    with the same means. *)
Theorem avg_steps_any_row_order (hourly hourly' : list hourly_row) :
  Permutation hourly hourly' -> avg_steps hourly = avg_steps hourly'.
Proof.
  intros Hperm. unfold avg_steps, pd.groupby_mean. f_equal.
  assert (Hkv : Permutation (hour_steps hourly) (hour_steps hourly'))
    by (unfold hour_steps; now apply Permutation_map).
  apply group_get_ext; try apply group_sums_increasing.
  intros k. rewrite !group_sums_get.
  pose proof (bucket_perm k _ _ Hkv) as Hb.
  rewrite (sum_Z_perm _ _ Hb), (Permutation_length Hb).
  destruct (bucket k (hour_steps hourly)) as [| x b] eqn:E1.
  - apply Permutation_nil in Hb. now rewrite Hb.
  - destruct (bucket k (hour_steps hourly')) as [| y b'] eqn:E2;
      [| reflexivity].
    apply Permutation_sym, Permutation_nil in Hb. discriminate.
Qed.

Lemma avg_steps_any_row_order_witness :
  avg_steps Examples.hourly_two_days = avg_steps (rev Examples.hourly_two_days).
Proof.
  apply avg_steps_any_row_order. apply Permutation_rev.
Defined.

(** ** The correlation table, further *)

Lemma cell_entry (act : list activity_row) (mx my : metric) :
  cell act mx my = corr_entry act mx my.
Proof. unfold cell. rewrite corr_matrix_entries. now destruct mx, my. Qed.

Lemma combine_swap (xs ys : list Q) :
  combine ys xs = map (fun v => (snd v, fst v)) (combine xs ys).
Proof.
  revert ys. induction xs as [| x xs IH]; intros [| y ys]; simpl;
    try reflexivity.
  now rewrite IH.
Qed.

Lemma mirror_step (st st' : pd.welford) (x y : Q) :
  mirror st st' ->
  mirror (pd.welford_step st (x, y)) (pd.welford_step st' (y, x)).
Proof.
  intros (Hn & Hmx & Hmy & Hsx & Hsy & Hcov).
  unfold mirror, pd.welford_step. cbn [fst snd pd.nobs pd.meanx pd.meany
    pd.ssqdm_x pd.ssqdm_y pd.covxy].
  rewrite <- Hn, <- Hmx, <- Hmy, <- Hsx, <- Hsy.
  repeat split; try reflexivity.
  rewrite Hcov. ring.
Qed.

Lemma mirror_run (xs ys : list Q) :
  mirror (pd.welford_run xs ys) (pd.welford_run ys xs).
Proof.
  unfold pd.welford_run. rewrite (combine_swap xs ys).
  assert (H0 : mirror pd.welford0 pd.welford0)
    by (unfold mirror; repeat split; reflexivity).
  revert H0. generalize pd.welford0 at 1 3. generalize pd.welford0.
  induction (combine xs ys) as [| [x y] l IH]; intros st' st H; simpl.
  - exact H.
  - apply IH. now apply mirror_step.
Qed.

Lemma Qeq_bool_zero_comp (p q : Q) :
  (p == q)%Q -> Qeq_bool p 0 = Qeq_bool q 0.
Proof.
  intros H. destruct (Qeq_bool p 0) eqn:Hp, (Qeq_bool q 0) eqn:Hq;
    try reflexivity.
  - apply Qeq_bool_iff in Hp. apply Qeq_bool_neq in Hq.
    exfalso. apply Hq. now rewrite <- H.
  - apply Qeq_bool_iff in Hq. apply Qeq_bool_neq in Hp.
    exfalso. apply Hp. now rewrite H.
Qed.

Lemma corr_of_mirror (st st' : pd.welford) :
  mirror st st' -> pd.corr_of st = pd.corr_of st'.
Proof.
  intros (Hn & _ & _ & Hsx & Hsy & Hcov). unfold pd.corr_of.
  rewrite <- Hn. destruct (pd.nobs st <? 1); [reflexivity |].
  assert (Hp : (pd.ssqdm_x st * pd.ssqdm_y st
                == pd.ssqdm_x st' * pd.ssqdm_y st')%Q)
    by (rewrite Hsx, Hsy; ring).
  rewrite <- (Qeq_bool_zero_comp _ _ Hp).
  destruct (Qeq_bool _ 0); [reflexivity |].
  now rewrite (Qeq_eqR _ _ Hcov), (Qeq_eqR _ _ Hp).
Qed.

(** X12: the correlation table is symmetric: the cell of one metric against
    another equals the cell of the other against the one, NaN included. *)
Theorem corr_matrix_symmetric (act : list activity_row) (mx my : metric) :
  cell act mx my = cell act my mx.
Proof.
  rewrite !cell_entry. unfold corr_entry, pd.nancorr.
  apply corr_of_mirror, mirror_run.
Qed.









(** ** The loader, further *)

Section LoaderMore.

Import Loader LoaderSpec.
Variable to_datetime : string -> option timestamp.

Lemma extends_refl (w : world) : extends w w.
Proof.
  unfold extends. split; [reflexivity |]. split; [now exists [] |].
  split; [apply Nat.le_refl | auto].
Qed.

Lemma extends_trans (w1 w2 w3 : world) :
  extends w1 w2 -> extends w2 w3 -> extends w1 w3.
Proof.
  intros (Hf & [o1 Hr] & Hn & Hc) (Hf' & [o2 Hr'] & Hn' & Hc').
  unfold extends. split; [congruence |]. split.
  - exists (o2 ++ o1)%list. rewrite Hr', Hr. apply app_assoc.
  - split; [lia | auto].
Qed.

Lemma frame_ret {A : Type} (a : A) : frame_only (ret a).
Proof. intros w. split; [apply extends_refl | reflexivity]. Qed.

Lemma frame_raise {A : Type} (e : error) : frame_only (@raise A e).
Proof. intros w. split; [apply extends_refl | reflexivity]. Qed.

Lemma frame_alloc : frame_only alloc.
Proof.
  intros w. unfold alloc, extends. simpl.
  split; [| reflexivity]. split; [reflexivity |].
  split; [now exists [] | split; [lia | auto]].
Qed.

Lemma frame_log_read (name : string) : frame_only (log_read name).
Proof.
  intros w. unfold log_read, extends. simpl.
  split; [| reflexivity]. split; [reflexivity |].
  split; [now exists [name] | split; [lia | auto]].
Qed.

Lemma frame_bind {A B : Type} (m : M A) (k : A -> M B) :
  frame_only m -> (forall a, frame_only (k a)) -> frame_only (bind m k).
Proof.
  intros Hm Hk w. unfold bind. destruct (Hm w) as [He Hc].
  destruct (m w) as [w1 [e | a]]; simpl in *.
  - split; assumption.
  - destruct (Hk a w1) as [He' Hc']. split.
    + eapply extends_trans; eassumption.
    + congruence.
Qed.

Lemma frame_read_csv {A : Type} (name : string) (file : filesystem -> option A) :
  frame_only (read_csv name file).
Proof.
  unfold read_csv. apply frame_bind; [apply frame_log_read |].
  intros _ w. destruct (file (fs w)).
  - apply (frame_bind alloc); [apply frame_alloc | intros; apply frame_ret].
  - apply frame_raise.
Qed.

Lemma frame_convert {A B : Type} (get : A -> string) (set : A -> timestamp -> B)
    (rows : list A) :
  frame_only (convert to_datetime get set rows).
Proof.
  intros w. rewrite convert_world. split; [apply extends_refl | reflexivity].
Qed.

Lemma frame_load_data : frame_only (load_data to_datetime).
Proof.
  unfold load_data.
  repeat (apply frame_bind;
          [first [apply frame_read_csv | apply frame_convert | apply frame_alloc]
          | intros ?]).
  apply frame_ret.
Qed.

(** X14: whatever a call of the cached loader does, succeed or fail, it
    leaves the files as they are, only adds to the front of the log of opened
    files, never hands out an identity twice and keeps a filled cache as it
    is; an empty cache is filled only by a call that returns, with the tables
    it returns, so a failed load is never cached. *)
Theorem load_data_cached_frame (w : world) :
  let w' := fst (load_data_cached to_datetime w) in
  let result := snd (load_data_cached to_datetime w) in
  extends w w'
  /\ (forall e, result = inl e -> cache w = None /\ cache w' = None)
  /\ (forall l, result = inr l -> cache w' = Some (frames l)).
Proof.
  cbv zeta. unfold load_data_cached.
  destruct (cache w) as [t |] eqn:Hc.
  - rewrite unpickle_eq. simpl. split; [| split].
    + unfold extends. simpl. split; [reflexivity |].
      split; [now exists [] | split; [lia | auto]].
    + discriminate.
    + intros l H. injection H as <-. exact Hc.
  - unfold bind. destruct (frame_load_data w) as [He Hk].
    destruct (load_data to_datetime w) as [w1 [e | l]]; simpl in *.
    + split; [exact He |]. split; [| discriminate].
      intros _ _. split; [reflexivity | congruence].
    + split; [| split].
      * destruct He as (Hf & Hr & Hn & _). unfold extends. simpl.
        split; [exact Hf |]. split; [exact Hr |]. split; [exact Hn |].
        rewrite Hc. discriminate.
      * discriminate.
      * intros l' H. injection H as <-. reflexivity.
Qed.



Lemma bind_read_csv {A B : Type} (name : string) (file : filesystem -> option A)
    (k : nat * A -> M B) (w : world) :
  bind (read_csv name file) k w
  = match file (fs w) with
    | Some rows =>
        k (next_id w, rows)
          (mkWorld (fs w) (name :: reads w) (cache w) (S (next_id w)))
    | None =>
        (mkWorld (fs w) (name :: reads w) (cache w) (next_id w),
         inl (FileNotFound name))
    end.
Proof.
  unfold read_csv, bind, log_read, alloc, ret, raise. simpl.
  now destruct (file (fs w)).
Qed.



Ltac open_file :=
  rewrite bind_read_csv;
  cbn [fs reads cache next_id fst snd
       dailyActivity_merged dailyCalories_merged dailyIntensities_merged
       dailySteps_merged sleepDay_merged heartrate_seconds_merged
       hourlySteps_merged weightLogInfo_merged].



Lemma load_data_missing (f : filesystem) (rd : list string) (ca : option tables)
    (n : nat) (name : string) (rest : list string) :
  missing_files f = name :: rest ->
  load_data to_datetime (mkWorld f rd ca n)
  = (mkWorld f (rev (opened_until name file_names) ++ rd) ca
       (List.length (opened_until name file_names) - 1 + n),
     inl (FileNotFound name)).
Proof.
  intros Hm. destruct f as [a c i s sl h hs wt].
  unfold missing_files in Hm.
  cbn [dailyActivity_merged dailyCalories_merged dailyIntensities_merged
       dailySteps_merged sleepDay_merged heartrate_seconds_merged
       hourlySteps_merged weightLogInfo_merged] in Hm.
  unfold load_data.
  destruct a as [a |];
    [| injection Hm as <- _; repeat open_file; reflexivity].
  destruct c as [c |];
    [| injection Hm as <- _; repeat open_file; reflexivity].
  destruct i as [i |];
    [| injection Hm as <- _; repeat open_file; reflexivity].
  destruct s as [s |];
    [| injection Hm as <- _; repeat open_file; reflexivity].
  destruct sl as [sl |];
    [| injection Hm as <- _; repeat open_file; reflexivity].
  destruct h as [h |];
    [| injection Hm as <- _; repeat open_file; reflexivity].
  destruct hs as [hs |];
    [| injection Hm as <- _; repeat open_file; reflexivity].
  destruct wt as [wt |];
    [| injection Hm as <- _; repeat open_file; reflexivity].
  discriminate Hm.
Qed.

Lemma load_data_cached_miss (w : world) :
  cache w = None ->
  load_data_cached to_datetime w
  = match load_data to_datetime w with
    | (w1, inr l) =>
        (mkWorld (fs w1) (reads w1) (Some (frames l)) (next_id w1), inr l)
    | (w1, inl e) => (w1, inl e)
    end.
Proof.
  intros Hc. unfold load_data_cached. rewrite Hc. unfold bind.
  now destruct (load_data to_datetime w) as [w1 [e | l]].
Qed.



(** X17: when a file is missing, the call raises the data-access error of
    the first missing file in the order of the script; the files before it
    have been opened, the files after it have not, no date has been
    converted, and nothing is cached. *)
Theorem load_missing_file (w : world) (name : string) (rest : list string) :
  cache w = None ->
  missing_files (fs w) = name :: rest ->
  load_data_cached to_datetime w
  = (mkWorld (fs w) (rev (opened_until name file_names) ++ reads w) None
       (List.length (opened_until name file_names) - 1 + next_id w),
     inl (FileNotFound name)).
Proof.
  intros Hc Hm. rewrite (load_data_cached_miss w Hc).
  destruct w as [f rd ca n]. cbn [fs reads cache next_id] in *.
  rewrite (load_data_missing f rd ca n name rest Hm). now subst ca.
Qed.

(** X18: once a pass of the script has rendered, every later pass renders
    the page of its own widget choices over the same tables, the ones in the
    cache, and opens no file; this holds whatever has happened to the files
    in between, missing files included. *)
Theorem later_passes_render_from_cache (ui : widgets) (w w1 : world)
    (out : list cmd) :
  run_script to_datetime ui w = (w1, inr out) ->
  exists t,
    cache w1 = Some t
    /\ out = script ui t
    /\ forall (ui' : widgets) (f' : filesystem),
         exists w2,
           run_script to_datetime ui' (mkWorld f' (reads w1) (cache w1) (next_id w1))
           = (w2, inr (script ui' t))
           /\ reads w2 = reads w1
           /\ cache w2 = Some t.
Proof.
  unfold run_script. intros H.
  apply bind_inr in H. destruct H as (w' & l & Hload & Hret).
  unfold ret in Hret. injection Hret as <- <-.
  destruct (load_data_cached_inr to_datetime w w' l Hload) as (Hc & _).
  exists (frames l). split; [exact Hc |]. split; [reflexivity |].
  intros ui' f'. unfold bind, load_data_cached. cbn [cache].
  rewrite Hc, unpickle_eq. unfold ret. cbn [frames reads fs cache next_id].
  eexists. split; [reflexivity |]. split; reflexivity.
Qed.

End LoaderMore.

Lemma load_data_cached_frame_witness :
  Loader.cache (Loader.mkWorld Examples.files_bad_calories [] None 0) = None
  /\ Loader.cache
       (fst (Loader.load_data_cached Loader.to_datetime_iso
               (Loader.mkWorld Examples.files_bad_calories [] None 0))) = None.
Proof.
  destruct (load_data_cached_frame Loader.to_datetime_iso
              (Loader.mkWorld Examples.files_bad_calories [] None 0))
    as (_ & Hfail & _).
  apply (Hfail (Loader.ParseError "yesterday")). reflexivity.
Defined.



Lemma load_missing_file_witness :
  Loader.load_data_cached Loader.to_datetime_iso
    (Loader.mkWorld MoreExamples.files_without_sleep [] None 0)
  = (Loader.mkWorld MoreExamples.files_without_sleep
       [ "sleepDay_merged.csv"; "dailySteps_merged.csv";
         "dailyIntensities_merged.csv"; "dailyCalories_merged.csv";
         "dailyActivity_merged.csv" ] None 4,
     inl (Loader.FileNotFound "sleepDay_merged.csv")).
Proof.
  rewrite (load_missing_file Loader.to_datetime_iso
             (Loader.mkWorld MoreExamples.files_without_sleep [] None 0)
             "sleepDay_merged.csv" [ "weightLogInfo_merged.csv" ]);
    reflexivity.
Defined.

Lemma later_passes_render_from_cache_witness :
  exists w1 out t,
    Loader.run_script Loader.to_datetime_iso (mkWidgets Weight_Log 0)
      Examples.fresh_process = (w1, inr out)
    /\ out = script (mkWidgets Weight_Log 0) t
    /\ exists w2,
         Loader.run_script Loader.to_datetime_iso (mkWidgets Heart_Rate 0)
           (Loader.mkWorld MoreExamples.files_without_sleep (Loader.reads w1)
              (Loader.cache w1) (Loader.next_id w1))
         = (w2, inr (script (mkWidgets Heart_Rate 0) t))
         /\ Loader.reads w2 = Loader.reads w1.
Proof.
  destruct (Loader.run_script Loader.to_datetime_iso (mkWidgets Weight_Log 0)
              Examples.fresh_process) as [w1 [e | out]] eqn:E;
    [vm_compute in E; discriminate |].
  destruct (later_passes_render_from_cache _ _ _ _ _ E) as (t & _ & Hout & Hlater).
  destruct (Hlater (mkWidgets Heart_Rate 0) MoreExamples.files_without_sleep)
    as (w2 & Hrun & Hreads & _).
  exists w1, out, t. split; [reflexivity |]. split; [exact Hout |].
  exists w2. split; assumption.
Defined.
